(** * The PBSPro launcher of SmartSim: a shallow embedding

    This development embeds [smartsim/launcher/pbs/pbsLauncher.py] as
    Rocq functions and proves properties of its control plane:
    [create_step], [run], [get_step_update] and [stop].

    Python objects are modelled as follows.
    - [str] is [string]; a value that may be [None] is an [option].
    - A raised exception is an [Outcome] carrying an [Exn]; code that
      touches the launcher (its registry, its task manager, the
      operating system, the scheduler, the logger) is a function from
      [LauncherState] to an [Outcome] and a new [LauncherState], so the
      state reached when an exception escapes is observable.
    - The registry [StepMapping] is a [gmap] from step names to entries.
    - Code of SmartSim that the launcher calls but that lives in other
      modules (the task manager, the [qstat]/[qdel] wrappers, the qstat
      parsers, the step classes) is collected in the interface
      [Externals]; calls into it are assumed to return. *)

From Stdlib Require Import Ascii String ZArith.
From stdpp Require Import base strings list gmap.
From stdpp Require Import pretty.

Open Scope Z_scope.

(** ** Python values *)

Module Py.

(** [str.isspace] on the ASCII range: tab, line feed, vertical tab,
    form feed, carriage return, the four separators 0x1c-0x1f, space. *)
Definition isspace (c : ascii) : bool :=
  let n := N_of_ascii c in
  ((9 <=? n) && (n <=? 13) || (28 <=? n) && (n <=? 31) || (n =? 32))%N.

Fixpoint lstrip (s : string) : string :=
  match s with
  | String c s' => if isspace c then lstrip s' else s
  | EmptyString => EmptyString
  end.

Definition rstrip (s : string) : string := String.rev (lstrip (String.rev s)).

(** [s.strip()] *)
Definition strip (s : string) : string := rstrip (lstrip s).

(** Truth value of a [str]: only the empty string is false. *)
Definition truthy_str (s : string) : bool :=
  match s with EmptyString => false | String _ _ => true end.

(** Truth value of a [str] that may be [None]. *)
Definition truthy (v : option string) : bool :=
  match v with Some s => truthy_str s | None => false end.

(** [str(v)] for a [str] that may be [None]. *)
Definition str (v : option string) : string :=
  match v with Some s => s | None => "None" end.

(** The newline character of an f-string. *)
Definition nl : string := String (ascii_of_nat 10) EmptyString.

End Py.

(** ** Exceptions *)

Inductive Exn : Type :=
  | TypeError (msg : string)
  | KeyError (key : string)
  | IndexError (msg : string)
  | LauncherError (msg : string)
  | SSConfigError (msg : string)
  | SSUnsupportedError (msg : string).

Inductive Outcome (A : Type) : Type :=
  | Return (a : A)
  | Raise (e : Exn).
Arguments Return {A} a.
Arguments Raise {A} e.

(** ** Status model *)

(** Modelled from the spec: the canonical statuses of
    [smartsim/constants.py], as section 4.1 lists them. *)
Inductive Status : Type :=
  Pending | Running | Completed | Failed | Cancelled | Unknown.

Definition status_name (s : Status) : string :=
  match s with
  | Pending => "Pending"
  | Running => "Running"
  | Completed => "Completed"
  | Failed => "Failed"
  | Cancelled => "Cancelled"
  | Unknown => "Unknown"
  end.

Definition canonical_statuses : list string :=
  ["Pending"; "Running"; "Completed"; "Failed"; "Cancelled"; "Unknown"].

(** Modelled from the spec: the constant [STATUS_COMPLETED] imported from
    [smartsim/constants.py], the canonical status [Completed]. *)
Definition STATUS_COMPLETED : string := status_name Completed.

(** ** StepInfo *)

(** Modelled from the spec: [StepInfo] of [smartsim/launcher/stepInfo.py],
    per section 3 a canonical status, an optional return code and the
    references to the captured output. *)
Module StepInfo.
Record t : Type := mk {
  status : string;
  returncode : option Z;
  output : option string;
  error : option string
}.

(** [info.status = s] *)
Definition set_status (s : string) (info : t) : t :=
  mk s (returncode info) (output info) (error info).

(** [info.returncode = rc] *)
Definition set_returncode (rc : option Z) (info : t) : t :=
  mk (status info) rc (output info) (error info).
End StepInfo.

(** ** Step Mapping Registry *)

(** The entry of one step name, with the attributes [stop] and
    [StepMapping.add] use: the scheduler's step id, the task manager's
    task id (either may be [None]) and the managed flag. *)
Module StepMap.
Record t : Type := mk {
  step_id : option string;
  task_id : option string;
  managed : bool
}.
End StepMap.

Module StepMapping.

(** Modelled from the spec: [StepMapping.add] of
    [smartsim/launcher/stepMapping.py]; it creates or replaces the
    entry for [name] (section 4.3). *)
Definition add (step_name : string) (step_id task_id : option string)
    (managed : bool) (mapping : gmap string StepMap.t) : gmap string StepMap.t :=
  <[step_name := StepMap.mk step_id task_id managed]> mapping.

(** Modelled from the spec: [StepMapping.__getitem__], the lookup by
    name that returns the full entry (section 4.3); a missing key is
    Python's [KeyError]. *)
Definition getitem (step_name : string) (mapping : gmap string StepMap.t)
    : Outcome StepMap.t :=
  match mapping !! step_name with
  | Some stepmap => Return stepmap
  | None => Raise (KeyError step_name)
  end.

(** Modelled from the spec: [StepMapping.get_ids] (section 4.3).  It
    walks [step_names] in order and keeps the names whose entry has the
    requested [managed] flag, with the scheduler's step id for managed
    entries and the supervisor's task id for unmanaged ones; names
    without an entry or with the other flag are skipped. *)
Fixpoint get_ids (mapping : gmap string StepMap.t) (step_names : list string)
    (managed : bool) : list string * list (option string) :=
  match step_names with
  | [] => ([], [])
  | name :: rest =>
      let '(names, ids) := get_ids mapping rest managed in
      match mapping !! name with
      | Some stepmap =>
          if managed && StepMap.managed stepmap then
            (name :: names, StepMap.step_id stepmap :: ids)
          else if negb managed && negb (StepMap.managed stepmap) then
            (name :: names, StepMap.task_id stepmap :: ids)
          else (names, ids)
      | None => (names, ids)
      end
  end.

End StepMapping.

(** ** Settings and steps *)

(** The settings classes exported by [smartsim/settings/__init__.py]. *)
Inductive SettingsClass : Type :=
  | AprunSettings
  | CobaltBatchSettings
  | BsubBatchSettings
  | JsrunSettings
  | MpirunSettings
  | QsubBatchSettings
  | RunSettings
  | SbatchSettings
  | SrunSettings.

(** A settings object: its class and its launch parameters, which the
    launcher never inspects. *)
Record Settings : Type := {
  settings_class : SettingsClass;
  settings_args : list (string * string)
}.

(** [repr(type(settings))], following the imports of
    [smartsim/settings/__init__.py]. *)
Definition type_repr (c : SettingsClass) : string :=
  "<class 'smartsim.settings." +:+
  match c with
  | AprunSettings => "alpsSettings.AprunSettings"
  | CobaltBatchSettings => "cobaltSettings.CobaltBatchSettings"
  | BsubBatchSettings => "lsfSettings.BsubBatchSettings"
  | JsrunSettings => "lsfSettings.JsrunSettings"
  | MpirunSettings => "mpirunSettings.MpirunSettings"
  | QsubBatchSettings => "pbsSettings.QsubBatchSettings"
  | RunSettings => "base.RunSettings"
  | SbatchSettings => "slurmSettings.SbatchSettings"
  | SrunSettings => "slurmSettings.SrunSettings"
  end +:+ "'>".

(** Modelled from the spec: the step classes of [smartsim/launcher/step].
    A step is an immutable launch specification (section 3); the three
    classes the PBSPro launcher instantiates are one batch class and two
    direct-run ones. *)
Inductive Step : Type :=
  | AprunStep (name cwd : string) (run_settings : Settings)
  | QsubBatchStep (name cwd : string) (batch_settings : Settings)
  | MpirunStep (name cwd : string) (run_settings : Settings).

Definition name (step : Step) : string :=
  match step with
  | AprunStep n _ _ | QsubBatchStep n _ _ | MpirunStep n _ _ => n
  end.

Definition cwd (step : Step) : string :=
  match step with
  | AprunStep _ c _ | QsubBatchStep _ c _ | MpirunStep _ c _ => c
  end.

(** [isinstance(step, QsubBatchStep)] *)
Definition is_QsubBatchStep (step : Step) : bool :=
  match step with QsubBatchStep _ _ _ => true | _ => false end.

(** Modelled from the spec: the attribute [managed] that each step class
    sets.  Once accepted, a batch step is owned by the scheduler
    (section 4.4), which makes it a managed step in the sense of the
    glossary; the scheduler never learns of a direct-run step, which is
    therefore unmanaged.  The comments of [get_step_update] say the same:
    managed is "just qsub batch", unmanaged is "Aprun, mpirun, etc". *)
Definition managed (step : Step) : bool :=
  match step with
  | QsubBatchStep _ _ _ => true
  | AprunStep _ _ _ | MpirunStep _ _ _ => false
  end.

(** ** The launcher's collaborators *)

(** What the launcher calls outside [pbsLauncher.py].  [World] is the state
    these calls act on: the task manager with its process table, the file
    system, the clock and the PBS scheduler. *)
Class Externals : Type := {
  World : Type;
  File : Type;
  (** [TaskManager] *)
  actively_monitoring : World → bool;
  start : World → World;
  start_and_wait : list string → string → World → (Z * string * string) * World;
  start_task : list string → string → File → File → World → string * World;
  get_task_update :
    option string → World → (string * option Z * option string * option string) * World;
  remove_task : option string → World → World;
  (** builtins: [open(path, mode)] and [time.sleep(seconds)] *)
  open : string → string → World → File * World;
  sleep : Z → World → World;
  (** [pbsCommands]: [qstat] returns (output, error), [qdel] returns
      (return code, output, error) *)
  qstat : list (option string) → World → (string * string) * World;
  qdel : list string → World → (Z * string * string) * World;
  (** [pbsParser] *)
  parse_qstat_jobid : string → string → string;
  parse_step_id_from_qstat : string → string → option string;
  (** methods of the step classes *)
  get_launch_cmd : Step → World → list string * World;
  get_output_files : Step → string * string;
  (** the message of the [SSConfigError] a step class raises for settings
      that lack something it requires, if any *)
  config_error : Settings → option string;
  (** [stepInfo]: the raw status with which the parser reports a job that
      is no longer in the scheduler's history, and the two pure maps from
      a raw status to a canonical one *)
  NOTFOUND : string;
  pbs_status : string → Status;
  unmanaged_status : string → Status
}.

(** ** The launcher *)

(** The launcher object: its collaborators' state, its registry
    [self.step_mapping], and what the module's logger has emitted
    (level, message). *)
Record LauncherState `{ext : Externals} : Type := mkState {
  world : World;
  step_mapping : gmap string StepMap.t;
  log : list (string * string)
}.
Arguments mkState {_} _ _ _.

Definition M `{ext : Externals} (A : Type) : Type :=
  LauncherState → Outcome A * LauncherState.

Section Monad.
Context `{ext : Externals}.

Definition ret {A} (a : A) : M A := λ st, (Return a, st).

Definition raise {A} (e : Exn) : M A := λ st, (Raise e, st).

Definition bind {A B} (m : M A) (k : A → M B) : M B :=
  λ st, match m st with
        | (Return a, st') => k a st'
        | (Raise e, st') => (Raise e, st')
        end.

(** a call into a collaborator that returns a value *)
Definition call {A} (f : World → A * World) : M A :=
  λ st, let '(a, w) := f (world st) in
        (Return a, mkState w (step_mapping st) (log st)).

(** a call into a collaborator that returns nothing *)
Definition call_ (f : World → World) : M unit :=
  λ st, (Return tt, mkState (f (world st)) (step_mapping st) (log st)).

(** reading the collaborators' state *)
Definition read {A} (f : World → A) : M A := λ st, (Return (f (world st)), st).

Definition get_mapping : M (gmap string StepMap.t) :=
  λ st, (Return (step_mapping st), st).

Definition set_mapping (f : gmap string StepMap.t → gmap string StepMap.t) : M unit :=
  λ st, (Return tt, mkState (world st) (f (step_mapping st)) (log st)).

(** [logger.<level>(msg)] *)
Definition logger (level msg : string) : M unit :=
  λ st, (Return tt, mkState (world st) (step_mapping st) (log st ++ [(level, msg)])).

(** a pure computation that may raise *)
Definition lift {A} (o : Outcome A) : M A := λ st, (o, st).

#[global] Instance M_ret : MRet M := @ret.
#[global] Instance M_bind : MBind M := λ A B k m, bind m k.
End Monad.


Section Launcher.
Context `{ext : Externals}.

(** [AprunStep(name, cwd, settings)] and its siblings: the constructor
    call either raises the class's [SSConfigError] or yields the step. *)
Definition new (cls : string → string → Settings → Step)
    (name cwd : string) (settings : Settings) : Outcome Step :=
  match config_error settings with
  | Some msg => Raise (SSConfigError msg)
  | None => Return (cls name cwd settings)
  end.

(** [PBSLauncher.create_step] *)
Definition create_step (name cwd : string) (step_settings : Settings)
    : Outcome Step :=
  let body :=
    match settings_class step_settings with
    | AprunSettings => new AprunStep name cwd step_settings
    | QsubBatchSettings => new QsubBatchStep name cwd step_settings
    | MpirunSettings => new MpirunStep name cwd step_settings
    | c => Raise (TypeError
             ("RunSettings type " +:+ type_repr c +:+ " not supported by PBSPro"))
    end in
  match body with
  | Raise (SSConfigError e) =>
      Raise (LauncherError ("Job step creation failed: " +:+ e))
  | r => r
  end.

(** Modelled from the spec: the constructor [PBSStepInfo(status,
    returncode)] of [smartsim/launcher/stepInfo.py].  A job that is no
    longer in the scheduler's history is classified [Completed] with
    return code 0 (section 4.1); any other raw status goes through the
    backend's status map and the return code is stored as given. *)
Definition PBSStepInfo (status : string) (returncode : option Z) : StepInfo.t :=
  if decide (status = NOTFOUND) then
    StepInfo.mk (status_name Completed) (Some 0) None None
  else
    StepInfo.mk (status_name (pbs_status status)) returncode None None.

(** Modelled from the spec: the constructor [UnmanagedStepInfo(status,
    returncode, output, error)]; the raw status of the local process
    goes through the status map, the rest is stored as given. *)
Definition UnmanagedStepInfo (status : string) (returncode : option Z)
    (output error : option string) : StepInfo.t :=
  StepInfo.mk (status_name (unmanaged_status status)) returncode output error.

(** The [while trials > 0] loop of [_get_pbs_step_id]; [trials] counts
    the iterations that remain and [step_id] is the loop variable. *)
Fixpoint poll_step_id (step : Step) (interval : Z) (trials : nat)
    (step_id : option string) : M (option string) :=
  match trials with
  | O => mret step_id
  | S trials' =>
      '(output, _) ← call (qstat [Some "-f"; Some "-F"; Some "json"]);
      let step_id := parse_step_id_from_qstat output (name step) in
      if Py.truthy step_id then mret step_id
      else
        call_ (sleep interval);;
        poll_step_id step interval trials' step_id
  end.

(** [PBSLauncher._get_pbs_step_id] *)
Definition _get_pbs_step_id (step : Step) (interval trials : Z)
    : M (option string) :=
  call_ (sleep interval);;
  step_id ← poll_step_id step interval (Z.to_nat trials) (Some "unassigned");
  if negb (Py.truthy step_id) then
    raise (LauncherError "Could not find id of launched job step")
  else mret step_id.

(** The body of the [for] loop of [_get_managed_step_update]: the
    [PBSStepInfo] of a raw status, with the return code set to 0 when
    the status is [Completed] ("account for case where job history is
    not logged by PBS"). *)
Definition managed_info (stat : string) : StepInfo.t :=
  let info := PBSStepInfo stat None in
  if decide (StepInfo.status info = STATUS_COMPLETED)
  then StepInfo.set_returncode (Some 0) info
  else info.

(** [PBSLauncher._get_managed_step_update] *)
Definition _get_managed_step_update (step_ids : list (option string))
    : M (list StepInfo.t) :=
  '(qstat_out, _) ← call (qstat step_ids);
  let stats := map (λ step_id, parse_qstat_jobid qstat_out (Py.str step_id)) step_ids in
  mret (map (λ '(stat, step_id), managed_info stat) (zip stats step_ids)).

(** [PBSLauncher._get_unmanaged_step_update] *)
Fixpoint _get_unmanaged_step_update (task_ids : list (option string))
    : M (list StepInfo.t) :=
  match task_ids with
  | [] => mret []
  | task_id :: rest =>
      '(stat, rc, out, err) ← call (get_task_update task_id);
      let update := UnmanagedStepInfo stat rc out err in
      updates ← _get_unmanaged_step_update rest;
      mret (update :: updates)
  end.

(** [PBSLauncher.get_step_update] *)
Definition get_step_update (step_names : list string)
    : M (list (string * StepInfo.t)) :=
  mapping ← get_mapping;
  let '(s_names, step_ids) := StepMapping.get_ids mapping step_names true in
  managed_updates ←
    (if decide (0 < length step_ids)%nat then
       s_statuses ← _get_managed_step_update step_ids;
       mret (zip s_names s_statuses)
     else mret []);
  mapping ← get_mapping;
  let '(t_names, task_ids) := StepMapping.get_ids mapping step_names false in
  unmanaged_updates ←
    (if decide (0 < length task_ids)%nat then
       t_statuses ← _get_unmanaged_step_update task_ids;
       mret (zip t_names t_statuses)
     else mret []);
  mret (managed_updates ++ unmanaged_updates).

(** [PBSLauncher.get_step_nodes] *)
Definition get_step_nodes (step_name : string) : M (list string) :=
  raise (SSUnsupportedError "SmartSim does not support PBSPro node aquisition").

(** The batch branch of [run]: submit and wait, then glean the id. *)
Definition submit_batch (step : Step) (cmd_list : list string)
    : M (option string * option string) :=
  '(rc, out, err) ← call (start_and_wait cmd_list (cwd step));
  if decide (rc ≠ 0) then
    raise (LauncherError
      ("Qsub batch submission failed" +:+ Py.nl +:+ " " +:+ out
         +:+ Py.nl +:+ " " +:+ err))
  else if Py.truthy_str out then
    let step_id := Py.strip out in
    logger "debug"
      ("Gleaned batch job id: " +:+ step_id +:+ " for " +:+ name step);;
    mret (Some step_id, None)
  else mret (None, None).

(** The other branch of [run]: open the output files and spawn. *)
Definition spawn_task (step : Step) (cmd_list : list string)
    : M (option string * option string) :=
  let '(out, err) := get_output_files step in
  output ← call (open out "w+");
  error ← call (open err "w+");
  task_id ← call (start_task cmd_list (cwd step) output error);
  mret (None, Some task_id).

(** [PBSLauncher.run] *)
Definition run (step : Step) : M (option string) :=
  monitoring ← read actively_monitoring;
  (if negb monitoring then call_ start else mret ());;
  cmd_list ← call (get_launch_cmd step);
  '(step_id, task_id) ←
    (if is_QsubBatchStep step then submit_batch step cmd_list
     else spawn_task step cmd_list);
  step_id ←
    (if negb (Py.truthy step_id) && managed step
     then _get_pbs_step_id step 2 5
     else mret step_id);
  set_mapping (StepMapping.add (name step) step_id task_id (managed step));;
  mret step_id.

(** The cancellation branch of [stop]: [qdel] for a managed step, with
    a warning when it fails, and removal of the task from the task
    manager. *)
Definition cancel (step_name : string) (stepmap : StepMap.t) : M unit :=
  if StepMap.managed stepmap then
    '(qdel_rc, _, err) ← call (qdel [Py.str (StepMap.step_id stepmap)]);
    (if decide (qdel_rc ≠ 0) then
       logger "warning"
         ("Unable to cancel job step " +:+ step_name +:+ Py.nl +:+ " " +:+ err)
     else mret ());;
    (if Py.truthy (StepMap.task_id stepmap)
     then call_ (remove_task (StepMap.task_id stepmap))
     else mret ())
  else call_ (remove_task (StepMap.task_id stepmap)).

(** [PBSLauncher.stop] *)
Definition stop (step_name : string) : M StepInfo.t :=
  mapping ← get_mapping;
  stepmap ← lift (StepMapping.getitem step_name mapping);
  cancel step_name stepmap;;
  updates ← get_step_update [step_name];
  match updates with
  | (_, step_info) :: _ => mret (StepInfo.set_status "Cancelled" step_info)
  | [] => raise (IndexError "list index out of range")
  end.

End Launcher.

(** ** Vocabulary of the statements *)

(** The entry of [name] exists and carries the flag [managed]. *)
Definition selected (mapping : gmap string StepMap.t) (managed : bool)
    (name : string) : bool :=
  match mapping !! name with
  | Some stepmap => Bool.eqb (StepMap.managed stepmap) managed
  | None => false
  end.

(** The identifier [get_ids] reports for [name]: the step id under the
    managed filter, the task id under the unmanaged one. *)
Definition entry_id (mapping : gmap string StepMap.t) (managed : bool)
    (name : string) : option string :=
  match mapping !! name with
  | Some stepmap =>
      if managed then StepMap.step_id stepmap else StepMap.task_id stepmap
  | None => None
  end.

(** [msg] contains [s]. *)
Definition includes (msg s : string) : Prop :=
  ∃ before after, msg = before +:+ s +:+ after.

(** The kinds of settings [create_step] accepts. *)
Definition supported (c : SettingsClass) : bool :=
  match c with
  | AprunSettings | QsubBatchSettings | MpirunSettings => true
  | _ => false
  end.

Section Traces.
Context `{ext : Externals}.

(** What [run] has before it branches on the step class: the launch
    command, in the world where the task manager is monitoring. *)
Definition prepared (step : Step) (w : World) : list string * World :=
  get_launch_cmd step (if negb (actively_monitoring w) then start w else w).

(** The arguments of the listing query of [_get_pbs_step_id]. *)
Definition listing : list (option string) := [Some "-f"; Some "-F"; Some "json"].

(** The world in which the retry loop, entered in [w0], makes its
    attempt number [k] (counted from 0) when all earlier attempts
    failed: every failed attempt is a [qstat] followed by a sleep. *)
Fixpoint attempt_world (interval : Z) (w0 : World) (k : nat) : World :=
  match k with
  | O => w0
  | S k' => sleep interval (qstat listing (attempt_world interval w0 k')).2
  end.

(** What attempt number [k] parses out of the listing. *)
Definition attempt (step : Step) (interval : Z) (w0 : World) (k : nat)
    : option string :=
  parse_step_id_from_qstat
    (qstat listing (attempt_world interval w0 k)).1.1 (name step).
End Traces.

(** ** A scheduler and a task manager for examples *)

Module Fake.

(** The example world: whether the task manager monitors, the seconds
    slept, the number of [qstat] calls made, the tasks removed, and the
    scenario: from which [qstat] call on the listing shows the job (if
    ever), the raw state the scheduler reports for it, and the return
    code [qdel] gives. *)
Record world : Type := mk {
  monitoring : bool;
  clock : Z;
  qstat_calls : nat;
  removed : list string;
  listed_from : option nat;
  job_state : string;
  qdel_rc : Z
}.

Definition start (w : world) : world :=
  mk true (clock w) (qstat_calls w) (removed w) (listed_from w) (job_state w) (qdel_rc w).

Definition sleep (s : Z) (w : world) : world :=
  mk (monitoring w) (clock w + s) (qstat_calls w) (removed w) (listed_from w)
     (job_state w) (qdel_rc w).

Definition remove_task (t : option string) (w : world) : world :=
  mk (monitoring w) (clock w) (qstat_calls w) (removed w ++ [Py.str t])
     (listed_from w) (job_state w) (qdel_rc w).

Definition has (flag : string) (cmd : list string) : bool :=
  existsb (String.eqb flag) cmd.

(** [qsub] rejects a command with [--reject], prints nothing for one
    with [--silent], and prints the job id otherwise. *)
Definition start_and_wait (cmd : list string) (cwd : string) (w : world)
    : (Z * string * string) * world :=
  if has "--reject" cmd then ((1, "submitting job_0", "qsub: Unknown queue"), w)
  else if has "--silent" cmd then ((0, "", ""), w)
  else ((0, "42.pbs" +:+ Py.nl, ""), w).

Definition start_task (cmd : list string) (cwd : string) (out err : string)
    (w : world) : string * world := ("1000", w).

(** Task [1000] has exited with code 1; any other task is running. *)
Definition get_task_update (t : option string) (w : world)
    : (string * option Z * option string * option string) * world :=
  if String.eqb (Py.str t) "1000"
  then (("Failed", Some 1, Some "job_1.out", Some "job_1.err"), w)
  else (("running", None, None, None), w).

Definition open (path mode : string) (w : world) : string * world := (path, w).

(** The listing shows job [42.pbs] under the name [job_0] from call
    number [listed_from] on; a query by id prints the job's raw state. *)
Definition qstat (args : list (option string)) (w : world)
    : (string * string) * world :=
  let n := S (qstat_calls w) in
  let out :=
    match args with
    | Some "-f" :: _ =>
        match listed_from w with
        | Some k => if (k <=? n)%nat then "42.pbs job_0" else ""
        | None => ""
        end
    | _ => job_state w
    end in
  ((out, ""),
   mk (monitoring w) (clock w) n (removed w) (listed_from w) (job_state w) (qdel_rc w)).

Definition qdel (args : list string) (w : world) : (Z * string * string) * world :=
  ((qdel_rc w, "", if (qdel_rc w =? 0)%Z then "" else "qdel: Unknown Job Id"), w).

Definition parse_qstat_jobid (out id : string) : string := out.

Definition parse_step_id_from_qstat (out name : string) : option string :=
  if String.eqb out ("42.pbs " +:+ name) then Some "42.pbs" else None.

Definition get_launch_cmd (step : Step) (w : world) : list string * world :=
  (match step with
   | AprunStep _ _ s => "aprun" :: map snd (settings_args s)
   | QsubBatchStep _ _ s => "qsub" :: map snd (settings_args s)
   | MpirunStep _ _ s => "mpirun" :: map snd (settings_args s)
   end, w).

Definition get_output_files (step : Step) : string * string :=
  (name step +:+ ".out", name step +:+ ".err").

Definition config_error (s : Settings) : option string :=
  match settings_args s with
  | [] => Some "no launch parameters given"
  | _ => None
  end.

Definition pbs_status (raw : string) : Status :=
  if String.eqb raw "R" then Running
  else if String.eqb raw "Q" then Pending
  else if String.eqb raw "F" then Completed
  else if String.eqb raw "X" then Failed
  else Unknown.

Definition unmanaged_status (raw : string) : Status :=
  if String.eqb raw "running" then Running
  else if String.eqb raw "Completed" then Completed
  else if String.eqb raw "Failed" then Failed
  else Unknown.

Definition externals : Externals :=
  Build_Externals world string
    monitoring start start_and_wait start_task get_task_update remove_task
    open sleep qstat qdel parse_qstat_jobid parse_step_id_from_qstat
    get_launch_cmd get_output_files config_error
    "NOTFOUND" pbs_status unmanaged_status.

(** A fresh launcher over a world with the given scenario. *)
Definition launcher (listed_from : option nat) (job_state : string) (qdel_rc : Z)
    (mapping : gmap string StepMap.t) : @LauncherState externals :=
  mkState (mk false 0 0 [] listed_from job_state qdel_rc : @World externals)
          mapping [].

Definition batch_settings (args : list string) : Settings :=
  {| settings_class := QsubBatchSettings;
     settings_args := map (λ a, ("flag", a)) args |}.

Definition job_0 (args : list string) : Step :=
  QsubBatchStep "job_0" "/lus/scratch/run" (batch_settings args).

Definition job_1 : Step :=
  AprunStep "job_1" "/lus/scratch/run"
    {| settings_class := AprunSettings; settings_args := [("exe", "simulation")] |}.

(** Settings of a supported kind that lack what the step class needs. *)
Definition empty_settings : Settings :=
  {| settings_class := AprunSettings; settings_args := [] |}.

(** A registry with one managed and one unmanaged step. *)
Definition managed_entry : StepMap.t := StepMap.mk (Some "42.pbs") None true.
Definition unmanaged_entry : StepMap.t := StepMap.mk None (Some "1000") false.
Definition registry : gmap string StepMap.t :=
  <["job_1" := unmanaged_entry]> (<["job_0" := managed_entry]> ∅).

End Fake.

(** ** Well-formed registry entries *)

(** What [stop] and [get_step_update] need of an entry: a managed one
    holds a step id that is a non-empty string, an unmanaged one holds a
    task id. *)
Definition entry_ok (stepmap : StepMap.t) : Prop :=
  if StepMap.managed stepmap
  then Py.truthy (StepMap.step_id stepmap) = true
  else is_Some (StepMap.task_id stepmap).

Definition registry_ok (mapping : gmap string StepMap.t) : Prop :=
  ∀ n stepmap, mapping !! n = Some stepmap → entry_ok stepmap.

(** ** Ensembles ([smartsim/entity/ensemble.py]) *)

Module Ensemble.

(** The Python values that reach an ensemble as parameters or keyword
    arguments.  [VCallable] is a function object, known by its name;
    [VOther] is an object of any other type (a float, a tuple, ...). *)
#[warnings="-register-all"]
Inductive value : Type :=
  | VNone
  | VBool (b : bool)
  | VInt (z : Z)
  | VStr (s : string)
  | VList (l : list value)
  | VDict (items : list (value * value))
  | VCallable (f : string)
  | VOther (type_name : string).

(** Truth value of a Python object. *)
Definition truthy (v : value) : bool :=
  match v with
  | VNone => false
  | VBool b => b
  | VInt z => negb (z =? 0)
  | VStr s => Py.truthy_str s
  | VList l => match l with [] => false | _ => true end
  | VDict d => match d with [] => false | _ => true end
  | VCallable _ | VOther _ => true
  end.

(** [type(v).__name__] *)
Definition type_name (v : value) : string :=
  match v with
  | VNone => "NoneType"
  | VBool _ => "bool"
  | VInt _ => "int"
  | VStr _ => "str"
  | VList _ => "list"
  | VDict _ => "dict"
  | VCallable _ => "function"
  | VOther t => t
  end.

(** The exceptions of [ensemble.py]. *)
Inductive exn : Type :=
  | TypeError (msg : string)
  | KeyError (key : string)
  | IndexError (msg : string)
  | SmartSimError (msg : string)
  | SSUnsupportedError (msg : string)
  | EntityExistsError (msg : string)
  | UserStrategyError (strategy : string).

Inductive result (A : Type) : Type :=
  | Ok (a : A)
  | Err (e : exn).
Arguments Ok {A} a.
Arguments Err {A} e.

(** A permutation strategy: one of the three of [strategies.py] or a
    function of the user's. *)
Inductive strategy : Type :=
  | create_all_permutations
  | step_values
  | random_permutations
  | user_function (f : string).

Definition strategy_name (f : strategy) : string :=
  match f with
  | create_all_permutations => "create_all_permutations"
  | step_values => "step_values"
  | random_permutations => "random_permutations"
  | user_function f => f
  end.

(** A [Model], with what [ensemble.py] passes to its constructor and the
    flag that [enable_key_prefixing] sets. *)
Record model : Type := mk_model {
  model_name : string;
  model_params : list (value * value);
  model_path : string;
  model_run_settings : Settings;
  key_prefixing : bool
}.

(** [Model(name, params, path, run_settings=run_settings)] *)
Definition Model (name : string) (params : list (value * value)) (path : string)
    (run_settings : Settings) : model :=
  mk_model name params path run_settings false.

(** [model.enable_key_prefixing()] *)
Definition model_enable_key_prefixing (m : model) : model :=
  mk_model (model_name m) (model_params m) (model_path m)
           (model_run_settings m) true.

(** What [add_model] may be handed: a [Model] or an object of another
    type, given by the text of [type(obj)]. *)
Inductive entity : Type :=
  | AModel (m : model)
  | NotAModel (type_repr : string).

(** The ensemble object: the attributes [ensemble.py] reads and writes,
    and what the module's logger has emitted.  [run_settings] and
    [batch_settings] are [None] when the attribute is the empty default. *)
Record t : Type := mk {
  name : string;
  path : string;
  params : value;
  batch_settings : option Settings;
  run_settings : option Settings;
  entities : list model;
  log : list (string * string)
}.

Definition set_entities (l : list model) (self : t) : t :=
  mk (name self) (path self) (params self) (batch_settings self)
     (run_settings self) l (log self).

Definition logger (level msg : string) (self : t) : t :=
  mk (name self) (path self) (params self) (batch_settings self)
     (run_settings self) (entities self) (log self ++ [(level, msg)]).

(** [model in self.entities]: the "in" operator uses the model name for
    [__eq__]. *)
Definition contains (m : model) (l : list model) : bool :=
  existsb (λ e, String.eqb (model_name e) (model_name m)) l.

(** [Ensemble.add_model] *)
Definition add_model (model : entity) (self : t) : result unit * t :=
  match model with
  | NotAModel type_repr =>
      (Err (TypeError ("Argument to add_model was of type " +:+ type_repr
                         +:+ ", not Model")), self)
  | AModel m =>
      if contains m (entities self) then
        (Err (EntityExistsError
                ("Model " +:+ model_name m +:+ " already exists in ensemble "
                   +:+ name self)), self)
      else (Ok (), set_entities (entities self ++ [m]) self)
  end.

(** [Ensemble.enable_key_prefixing] *)
Definition enable_key_prefixing (self : t) : t :=
  set_entities (map model_enable_key_prefixing (entities self)) self.


(** [Ensemble.__getitem__] for an integer index: Python's list indexing,
    where a negative index counts from the end. *)
Definition getitem (index : Z) (self : t) : result model :=
  let n := Z.of_nat (length (entities self)) in
  let i := if index <? 0 then index + n else index in
  if (0 <=? i) && (i <? n) then
    match entities self !! Z.to_nat i with
    | Some m => Ok m
    | None => Err (IndexError "list index out of range")
    end
  else Err (IndexError "list index out of range").

(** [Ensemble._set_strategy]; [repr] renders a value that is not a string
    in the error message. *)
Definition _set_strategy (repr : value → string) (strategy_arg : value)
    : result strategy :=
  match strategy_arg with
  | VStr s =>
      if String.eqb s "all_perm" then Ok create_all_permutations
      else if String.eqb s "step" then Ok step_values
      else if String.eqb s "random" then Ok random_permutations
      else Err (SSUnsupportedError
                  ("Permutation strategy given is not supported: " +:+ s))
  | VCallable f => Ok (user_function f)
  | v => Err (SSUnsupportedError
                ("Permutation strategy given is not supported: " +:+ repr v))
  end.

(** The loop of [_read_model_parameters] over [self.params.items()]. *)
Fixpoint read_items (items : list (value * value)) (param_names : list value)
    (parameters : list (list value)) : result (list value * list (list value)) :=
  match items with
  | [] => Ok (param_names, parameters)
  | (name, val) :: rest =>
      let param_names := param_names ++ [name] in
      match val with
      | VList l => read_items rest param_names (parameters ++ [l])
      | VInt _ | VBool _ | VStr _ =>
          read_items rest param_names (parameters ++ [[val]])
      | _ => Err (TypeError ("Incorrect type for ensemble parameters" +:+ Py.nl
                               +:+ "Must be list, int, or string."))
      end
  end.

(** [Ensemble._read_model_parameters] *)
Definition _read_model_parameters (self : t)
    : result (list value * list (list value)) :=
  match params self with
  | VDict items => read_items items [] []
  | _ => Err (TypeError
                "Ensemble initialization argument 'params' must be of type dict")
  end.

(** [kwargs.pop(key, default)] on a dictionary with string keys. *)
Definition pop (key : string) (kwargs : list (string * value))
    : option value * list (string * value) :=
  (snd <$> List.find (λ kv, String.eqb (fst kv) key) kwargs,
   List.filter (λ kv, negb (String.eqb (fst kv) key)) kwargs).

(** ["_".join((self.name, str(i)))] *)
Definition member_name (self : t) (i : nat) : string :=
  name self +:+ "_" +:+ pretty i.

Section Initialize.

(** What a call of a strategy returns or raises: the three strategies of
    [strategies.py] and the user's functions are not part of this file. *)
Variable call :
  strategy → list value → list (list value) → list (string * value) → result value.
Variable repr : value → string.

(** The loop over [enumerate(all_model_params)]; [i] is the index of the
    first element of [param_sets] and [rs] is [self.run_settings]. *)
Fixpoint add_members (f : strategy) (i : nat) (param_sets : list value)
    (rs : Settings) (self : t) : result unit * t :=
  match param_sets with
  | [] => (Ok (), self)
  | param_set :: rest =>
      match param_set with
      | VDict d =>
          let model := Model (member_name self i) d (path self) rs in
          let model := model_enable_key_prefixing model in
          match add_model (AModel model) self with
          | (Ok _, self) => add_members f (S i) rest rs self
          | (Err e, self) => (Err e, self)
          end
      | _ => (Err (UserStrategyError (strategy_name f)), self)
      end
  end.

(** The loop over [range(replicas)]: [count] iterations, starting at [i]. *)
Fixpoint add_replicas (i count : nat) (rs : Settings) (self : t) : result unit * t :=
  match count with
  | O => (Ok (), self)
  | S count' =>
      let model := Model (member_name self i) [] (path self) rs in
      let model := model_enable_key_prefixing model in
      let self := logger "debug"
                    ("Created ensemble member: " +:+ member_name self i
                       +:+ " in " +:+ name self) self in
      match add_model (AModel model) self with
      | (Ok _, self) => add_replicas (S i) count' rs self
      | (Err e, self) => (Err e, self)
      end
  end.

(** [Ensemble._initialize_entities] *)
Definition _initialize_entities (kwargs : list (string * value)) (self : t)
    : result unit * t :=
  match pop "perm_strat" kwargs with
  | (None, _) => (Err (KeyError "perm_strat"), self)
  | (Some perm_strat, kwargs) =>
      match _set_strategy repr perm_strat with
      | Err e => (Err e, self)
      | Ok f =>
          let '(replicas, kwargs) := pop "replicas" kwargs in
          let replicas := default VNone replicas in
          if truthy (params self) then
            match run_settings self with
            | Some rs =>
                match _read_model_parameters self with
                | Err e => (Err e, self)
                | Ok (names, parameters) =>
                    match call f names parameters kwargs with
                    | Err e => (Err e, self)
                    | Ok (VList all_model_params) =>
                        add_members f 0 all_model_params rs self
                    | Ok _ => (Err (UserStrategyError (strategy_name f)), self)
                    end
                end
            | None =>
                (Err (SmartSimError
                   "Ensembles supplied with 'params' argument must be provided run settings"),
                 self)
            end
          else
            match run_settings self with
            | Some rs =>
                if truthy replicas then
                  match replicas with
                  | VInt n => add_replicas 0 (Z.to_nat n) rs self
                  | VBool _ => add_replicas 0 1 rs self
                  | v => (Err (TypeError ("'" +:+ type_name v
                            +:+ "' object cannot be interpreted as an integer")),
                          self)
                  end
                else
                  (Err (SmartSimError
                     "Ensembles without 'params' to expand into members cannot be given run settings"),
                   self)
            | None =>
                match batch_settings self with
                | None =>
                    (Err (SmartSimError
                       "Ensemble must be provided batch settings or run settings"),
                     self)
                | Some _ =>
                    (Ok (), logger "info" "Empty ensemble created for batch launch" self)
                end
            end
      end
  end.

End Initialize.

(** *** Vocabulary of the statements about ensembles *)

(** The values [_read_model_parameters] accepts: lists, and integers
    (booleans are integers in Python) and strings. *)
Definition acceptable (v : value) : bool :=
  match v with
  | VList _ | VInt _ | VBool _ | VStr _ => true
  | _ => false
  end.

(** The list of candidate values a parameter stands for. *)
Definition as_list (v : value) : list value :=
  match v with VList l => l | _ => [v] end.

Definition is_dict (v : value) : bool :=
  match v with VDict _ => true | _ => false end.

Definition dict_items (v : value) : list (value * value) :=
  match v with VDict d => d | _ => [] end.

Definition set_params (v : value) (self : t) : t :=
  mk (name self) (path self) v (batch_settings self) (run_settings self)
     (entities self) (log self).

(** The member number [i] of [self], as the two loops build it. *)
Definition member (self : t) (rs : Settings) (i : nat)
    (params : list (value * value)) : model :=
  mk_model (member_name self i) params (path self) rs true.

Definition names (self : t) : list string := map model_name (entities self).

(** No member of [self] has one of the names the loops use from index
    [i] on. *)
Definition fresh_from (self : t) (i : nat) : Prop :=
  ∀ j, (i ≤ j)%nat → member_name self j ∉ names self.

(** [self'] is [self] with members appended that all have key prefixing
    enabled, and distinct names have stayed distinct. *)
Definition grows_from (self self' : t) : Prop :=
  (∃ new, entities self' = entities self ++ new
          ∧ forallb key_prefixing new = true)
  ∧ (NoDup (names self) → NoDup (names self')).

(** The two errors that come from handling one member. *)
Definition member_error (e : exn) : Prop :=
  match e with
  | UserStrategyError _ | EntityExistsError _ => True
  | _ => False
  end.

End Ensemble.

(** ** Strategies and ensembles for examples *)

Module EnsembleExamples.
Import Ensemble.

(** All combinations of one value per parameter, as dictionaries. *)
Fixpoint product (param_names : list value) (parameters : list (list value))
    : list (list (value * value)) :=
  match param_names, parameters with
  | n :: ns, vs :: ps =>
      flat_map (λ v, map (cons (n, v)) (product ns ps)) vs
  | _, _ => [[]]
  end.

(** [create_all_permutations] combines; the user's function [broken]
    returns a list whose second element is no dictionary; [nothing]
    returns [None]; anything else raises. *)
Definition call (f : strategy) (param_names : list value)
    (parameters : list (list value)) (kwargs : list (string * value))
    : result value :=
  match f with
  | create_all_permutations =>
      Ok (VList (map VDict (product param_names parameters)))
  | user_function "broken" =>
      Ok (VList [VDict [(VStr "steps", VInt 10)]; VInt 3; VDict []])
  | user_function "nothing" => Ok VNone
  | _ => Err (TypeError "strategy failed")
  end.

Definition repr (v : value) : string := type_name v.

Definition aprun : Settings :=
  {| settings_class := AprunSettings; settings_args := [("exe", "simulation")] |}.

Definition qsub : Settings :=
  {| settings_class := QsubBatchSettings; settings_args := [("nodes", "4")] |}.

Definition grid : value :=
  VDict [(VStr "steps", VList [VInt 10; VInt 20]); (VStr "mode", VStr "fast")].

(** An ensemble before its members are created. *)
Definition ensemble (params : value) (batch_settings run_settings : option Settings)
    : t :=
  mk "ens" "/lus/scratch/run" params batch_settings run_settings [] [].

End EnsembleExamples.

(** * Properties *)

(** ** The registry *)

Lemma get_ids_names mapping step_names managed :
  (StepMapping.get_ids mapping step_names managed).1
  = List.filter (selected mapping managed) step_names.
Proof.
  induction step_names as [|n rest IH]; [done|].
  cbn [StepMapping.get_ids List.filter].
  destruct (StepMapping.get_ids mapping rest managed) as [names ids] eqn:E.
  cbn [fst] in IH. unfold selected at 1.
  destruct (mapping !! n) as [[sid tid m]|]; [|by rewrite <- IH].
  destruct managed, m; cbn; by rewrite <- IH.
Qed.

Lemma get_ids_ids mapping step_names managed :
  (StepMapping.get_ids mapping step_names managed).2
  = map (entry_id mapping managed)
        (StepMapping.get_ids mapping step_names managed).1.
Proof.
  induction step_names as [|n rest IH]; [done|].
  cbn [StepMapping.get_ids].
  destruct (StepMapping.get_ids mapping rest managed) as [names ids] eqn:E.
  cbn [fst snd] in IH.
  destruct (mapping !! n) as [[sid tid m]|] eqn:En; [|done].
  destruct managed, m; cbn; rewrite ?IH; unfold entry_id; by rewrite ?En.
Qed.

Lemma selected_Some mapping managed n :
  selected mapping managed n = true ↔
  ∃ stepmap, mapping !! n = Some stepmap ∧ StepMap.managed stepmap = managed.
Proof.
  unfold selected. destruct (mapping !! n) as [e|].
  - rewrite Bool.eqb_true_iff. split.
    + intros Hm. by exists e.
    + intros (e' & [= <-] & Hm). done.
  - split; [done|]. by intros (e' & [=] & _).
Qed.

(** C7.  [get_ids] returns the names of [step_names] whose entry carries
    the requested flag, in input order, and the list of their identifiers
    position by position (so the two lists have equal length); every
    returned name has an entry with that flag; names without an entry or
    with the other flag are dropped, the function being total; and no name
    is returned under both filters. *)
Theorem get_ids_spec (mapping : gmap string StepMap.t)
    (step_names : list string) (managed : bool) :
  let '(names, ids) := StepMapping.get_ids mapping step_names managed in
  names = List.filter (selected mapping managed) step_names
  ∧ ids = map (entry_id mapping managed) names
  ∧ length names = length ids
  ∧ (∀ i n, names !! i = Some n →
       ∃ stepmap, mapping !! n = Some stepmap
                  ∧ StepMap.managed stepmap = managed
                  ∧ ids !! i = Some (if managed then StepMap.step_id stepmap
                                     else StepMap.task_id stepmap))
  ∧ (∀ n, n ∈ step_names → selected mapping managed n = false → n ∉ names)
  ∧ (∀ n, n ∈ (StepMapping.get_ids mapping step_names true).1 →
          n ∉ (StepMapping.get_ids mapping step_names false).1).
Proof.
  pose proof (get_ids_names mapping step_names managed) as Hn.
  pose proof (get_ids_ids mapping step_names managed) as Hi.
  destruct (StepMapping.get_ids mapping step_names managed) as [names ids].
  cbn [fst snd] in Hn, Hi.
  split; [done|]. split; [done|]. split; [by rewrite Hi, length_map|].
  split; [|split].
  - intros i n Hin.
    assert (n ∈ names) as Hel by (by eapply list_elem_of_lookup_2).
    rewrite Hn in Hel. apply list_elem_of_In, filter_In in Hel as [_ Hsel].
    apply selected_Some in Hsel as (e & He & Hm).
    exists e. split; [done|]. split; [done|].
    rewrite Hi, list_lookup_fmap, Hin. cbn. unfold entry_id. by rewrite He.
  - intros n _ Hsel Hel. rewrite Hn in Hel.
    apply list_elem_of_In, filter_In in Hel as [_ Hsel']. congruence.
  - intros n. rewrite !get_ids_names, !list_elem_of_In, !filter_In.
    intros [_ (e & He & Hm)%selected_Some] [_ (e' & He' & Hm')%selected_Some].
    congruence.
Qed.

(** ** Polling *)

(** Unfolding the monad and the primitive effects. *)
Ltac run_monad :=
  unfold mbind, mret, M_bind, M_ret, bind, ret, raise, call, call_, read,
    get_mapping, set_mapping, logger, lift in *; cbn beta iota in *.

Section Polling.
Context `{ext : Externals}.

Lemma zip_map_self {A B C} (f : A → B) (g : B → C) (l : list A) :
  map (λ '(b, _), g b) (zip (map f l) l) = map (λ a, g (f a)) l.
Proof. induction l as [|a l IH]; [done|]. cbn. by rewrite IH. Qed.

(** The managed poll issues one [qstat] for the whole list of ids and
    builds one [StepInfo] per id, in order. *)
Lemma managed_step_update_eq step_ids st :
  _get_managed_step_update step_ids st
  = (Return (map (λ step_id,
                    managed_info
                      (parse_qstat_jobid (qstat step_ids (world st)).1.1
                                         (Py.str step_id)))
                 step_ids),
     mkState (qstat step_ids (world st)).2 (step_mapping st) (log st)).
Proof.
  unfold _get_managed_step_update. run_monad.
  destruct (qstat step_ids (world st)) as [[out err] w]. cbn.
  by rewrite zip_map_self.
Qed.

(** The unmanaged poll returns one [StepInfo] per task id, in order,
    each built from what the task manager reports for that id; it
    changes neither the registry nor the log. *)
Lemma unmanaged_step_update_returns task_ids st :
  ∃ updates w,
    _get_unmanaged_step_update task_ids st
    = (Return updates, mkState w (step_mapping st) (log st))
    ∧ Forall2 (λ task_id update,
                 ∃ w0, let '(stat, rc, out, err) := (get_task_update task_id w0).1 in
                       update = UnmanagedStepInfo stat rc out err)
              task_ids updates.
Proof.
  revert st. induction task_ids as [|t rest IH]; intros st.
  - exists [], (world st). split; [by destruct st|constructor].
  - cbn [_get_unmanaged_step_update]. run_monad.
    destruct (get_task_update t (world st)) as [[[[stat rc] out] err] w1] eqn:E.
    destruct (IH (mkState w1 (step_mapping st) (log st))) as (us & w2 & -> & HF).
    exists (UnmanagedStepInfo stat rc out err :: us), w2. split; [done|].
    constructor; [|done]. exists (world st). by rewrite E.
Qed.

Lemma zip_map_r {A B} (f : A → B) (l : list A) :
  zip l (map f l) = map (λ a, (a, f a)) l.
Proof. induction l as [|a l IH]; [done|]. cbn. by rewrite IH. Qed.

(** [get_step_update] always returns.  Its result is the managed names
    of the request, in order, each with the [StepInfo] built from the
    one batched [qstat] and the step id registered under that name,
    followed by the unmanaged names, in order, each with a [StepInfo]
    built from what the task manager reports for the task id registered
    under that name.  Registry and log are left as they were. *)
Lemma get_step_update_returns step_names st :
  let mapping := step_mapping st in
  let s_names := List.filter (selected mapping true) step_names in
  let t_names := List.filter (selected mapping false) step_names in
  let qstat_out :=
    (qstat (map (entry_id mapping true) s_names) (world st)).1.1 in
  ∃ t_statuses w,
    get_step_update step_names st
    = (Return
         (map (λ n, (n, managed_info
                          (parse_qstat_jobid qstat_out
                             (Py.str (entry_id mapping true n)))))
              s_names
          ++ zip t_names t_statuses),
       mkState w mapping (log st))
    ∧ Forall2 (λ n update,
                 ∃ w0, let '(stat, rc, out, err) :=
                         (get_task_update (entry_id mapping false n) w0).1 in
                       update = UnmanagedStepInfo stat rc out err)
              t_names t_statuses.
Proof.
  intros mapping s_names t_names qstat_out.
  unfold get_step_update. run_monad.
  pose proof (get_ids_names mapping step_names true) as Hsn.
  pose proof (get_ids_ids mapping step_names true) as Hsi.
  pose proof (get_ids_names mapping step_names false) as Htn.
  pose proof (get_ids_ids mapping step_names false) as Hti.
  fold mapping.
  destruct (StepMapping.get_ids mapping step_names true) as [sn step_ids].
  cbn [fst snd] in Hsn, Hsi. fold s_names in Hsn. subst sn step_ids.
  assert (zip s_names
            (map (λ step_id, managed_info (parse_qstat_jobid qstat_out (Py.str step_id)))
                 (map (entry_id mapping true) s_names))
          = map (λ n, (n, managed_info
                            (parse_qstat_jobid qstat_out
                               (Py.str (entry_id mapping true n)))))
                s_names) as Hms.
  { rewrite map_map. apply (zip_map_r (λ n, managed_info _)). }
  destruct (decide (0 < length (map (entry_id mapping true) s_names))%nat)
    as [Hs|Hs].
  - rewrite managed_step_update_eq. cbn [step_mapping world log].
    fold mapping qstat_out. rewrite Hms.
    destruct (StepMapping.get_ids mapping step_names false) as [tn task_ids].
    cbn [fst snd] in Htn, Hti. fold t_names in Htn. subst tn task_ids.
    destruct (decide (0 < length (map (entry_id mapping false) t_names))%nat)
      as [Ht|Ht].
    + destruct (unmanaged_step_update_returns
                  (map (entry_id mapping false) t_names)
                  (mkState (qstat (map (entry_id mapping true) s_names)
                              (world st)).2 mapping (log st)))
        as (us & w2 & -> & HF).
      exists us, w2. split; [done|]. by apply Forall2_fmap_l in HF.
    + rewrite length_map in Ht. destruct t_names; [|cbn in Ht; lia].
      exists [], (qstat (map (entry_id mapping true) s_names) (world st)).2.
      split; [done|constructor].
  - rewrite length_map in Hs. destruct s_names; [|cbn in Hs; lia].
    cbn [map app zip zip_with]. fold mapping.
    destruct (StepMapping.get_ids mapping step_names false) as [tn task_ids].
    cbn [fst snd] in Htn, Hti. fold t_names in Htn. subst tn task_ids.
    destruct (decide (0 < length (map (entry_id mapping false) t_names))%nat)
      as [Ht|Ht].
    + destruct (unmanaged_step_update_returns
                  (map (entry_id mapping false) t_names) st)
        as (us & w2 & -> & HF).
      exists us, w2. split; [done|]. by apply Forall2_fmap_l in HF.
    + rewrite length_map in Ht. destruct t_names; [|cbn in Ht; lia].
      exists [], (world st). split; [by destruct st|constructor].
Qed.

End Polling.

Section Updates.
Context `{ext : Externals}.

Lemma Forall2_elem_of_zip {A B} (P : A → B → Prop) (l : list A) (k : list B) a b :
  Forall2 P l k → (a, b) ∈ zip l k → P a b ∧ a ∈ l.
Proof.
  intros HF. induction HF as [|x y l k Hxy HF IH]; cbn.
  - by intros ?%elem_of_nil.
  - intros [[= -> ->]|Hin]%elem_of_cons.
    + split; [done|left].
    + destruct (IH Hin). split; [done|by right].
Qed.

Lemma Forall2_zip_fst {A B} (P : A → B → Prop) (l : list A) (k : list B) :
  Forall2 P l k → (zip l k).*1 = l.
Proof. induction 1; cbn; by f_equal. Qed.

Lemma status_name_canonical (s : Status) : status_name s ∈ canonical_statuses.
Proof. apply list_elem_of_In. destruct s; cbn; tauto. Qed.

Lemma managed_info_canonical stat :
  StepInfo.status (managed_info stat) ∈ canonical_statuses.
Proof.
  unfold managed_info, PBSStepInfo.
  repeat case_decide; unfold StepInfo.set_returncode;
    cbn [StepInfo.status]; apply status_name_canonical.
Qed.

Lemma managed_info_returncode stat :
  (StepInfo.status (managed_info stat) = "Completed"
     → StepInfo.returncode (managed_info stat) = Some 0)
  ∧ (StepInfo.status (managed_info stat) ≠ "Completed"
     → StepInfo.returncode (managed_info stat) = None).
Proof.
  unfold managed_info, PBSStepInfo, STATUS_COMPLETED.
  repeat case_decide; cbn in *; split; intros; congruence.
Qed.

Lemma selected_exclusive mapping n :
  selected mapping true n = true → selected mapping false n = true → False.
Proof.
  intros (e & He & Hm)%selected_Some (e' & He' & Hm')%selected_Some. congruence.
Qed.

(** C3.  [get_step_update] returns, for every request, a flat list of
    (name, StepInfo) pairs made of the results for the managed names
    followed by the results for the unmanaged names; each part lists its
    names in the order of the request; a managed name is paired with the
    [StepInfo] built from the step id registered under that very name,
    an unmanaged name with one built from the task id registered under
    that very name; and a request for a single name registered as
    managed yields exactly one pair, whose status is canonical. *)
Theorem get_step_update_spec (step_names : list string) (st : LauncherState) :
  let mapping := step_mapping st in
  let s_names := List.filter (selected mapping true) step_names in
  let t_names := List.filter (selected mapping false) step_names in
  let qstat_out :=
    (qstat (map (entry_id mapping true) s_names) (world st)).1.1 in
  ∃ managed_updates unmanaged_updates st',
    get_step_update step_names st
    = (Return (managed_updates ++ unmanaged_updates), st')
    ∧ step_mapping st' = mapping
    ∧ managed_updates.*1 = s_names
    ∧ unmanaged_updates.*1 = t_names
    ∧ (∀ n info, (n, info) ∈ managed_updates →
         info = managed_info
                  (parse_qstat_jobid qstat_out (Py.str (entry_id mapping true n))))
    ∧ (∀ n info, (n, info) ∈ unmanaged_updates →
         ∃ w0, let '(stat, rc, out, err) :=
                 (get_task_update (entry_id mapping false n) w0).1 in
               info = UnmanagedStepInfo stat rc out err)
    ∧ (∀ name, step_names = [name] → selected mapping true name = true →
         ∃ info, managed_updates ++ unmanaged_updates = [(name, info)]
                 ∧ StepInfo.status info ∈ canonical_statuses).
Proof.
  intros mapping s_names t_names qstat_out.
  destruct (get_step_update_returns step_names st) as (us & w & Heq & HF).
  fold mapping s_names t_names qstat_out in Heq, HF.
  eexists _, (zip t_names us), _. split; [exact Heq|].
  split; [done|]. split; [|split; [|split; [|split]]].
  - rewrite <- list_fmap_compose. apply list_fmap_id.
  - by eapply Forall2_zip_fst.
  - intros n info (n' & [= -> ->] & _)%list_elem_of_fmap. done.
  - intros n info Hin. by destruct (Forall2_elem_of_zip _ _ _ _ _ HF Hin).
  - intros nm -> Hsel. subst s_names t_names. cbn [List.filter] in *.
    rewrite Hsel in *.
    destruct (selected mapping false nm) eqn:Hsel';
      [by destruct (selected_exclusive mapping nm)|].
    apply Forall2_nil_inv_l in HF as ->. cbn.
    eexists. split; [done|]. apply managed_info_canonical.
Qed.

(** C9.  Every result [get_step_update] returns for a managed name has
    return code 0 when its status is [Completed] and no return code
    ([None]) for any other status. *)
Theorem managed_update_returncode (step_names : list string) (st : LauncherState) :
  ∃ updates st',
    get_step_update step_names st = (Return updates, st')
    ∧ ∀ n info, (n, info) ∈ updates → selected (step_mapping st) true n = true →
        (StepInfo.status info = "Completed" → StepInfo.returncode info = Some 0)
        ∧ (StepInfo.status info ≠ "Completed" → StepInfo.returncode info = None).
Proof.
  destruct (get_step_update_returns step_names st) as (us & w & Heq & HF).
  eexists _, _. split; [exact Heq|].
  intros n info [Hin|Hin]%elem_of_app Hsel.
  - apply list_elem_of_fmap in Hin as (n' & [= -> ->] & _).
    apply managed_info_returncode.
  - destruct (Forall2_elem_of_zip _ _ _ _ _ HF Hin) as [_ Hn].
    apply list_elem_of_In, filter_In in Hn as [_ Hn].
    by destruct (selected_exclusive (step_mapping st) n).
Qed.

(** C4.  When the batched [qstat] of a poll reports, for the step id of
    a managed name of the request, that the job is no longer in the
    scheduler's history, the poll returns (no error is raised) and every
    result for that name, of which there is at least one, has status
    [Completed] and return code 0. *)
Theorem not_in_history_is_completed (step_names : list string)
    (st : LauncherState) (n : string) :
  let mapping := step_mapping st in
  let step_ids :=
    map (entry_id mapping true) (List.filter (selected mapping true) step_names) in
  n ∈ step_names →
  selected mapping true n = true →
  parse_qstat_jobid (qstat step_ids (world st)).1.1
    (Py.str (entry_id mapping true n)) = NOTFOUND →
  ∃ updates st',
    get_step_update step_names st = (Return updates, st')
    ∧ (∃ info, (n, info) ∈ updates)
    ∧ ∀ info, (n, info) ∈ updates →
        StepInfo.status info = "Completed" ∧ StepInfo.returncode info = Some 0.
Proof.
  intros mapping step_ids Hn Hsel Hnot.
  destruct (get_step_update_returns step_names st) as (us & w & Heq & HF).
  fold mapping in Heq, HF.
  eexists _, _. split; [exact Heq|].
  assert (managed_info NOTFOUND
          = StepInfo.mk "Completed" (Some 0) None None) as Hinfo.
  { unfold managed_info, PBSStepInfo, STATUS_COMPLETED.
    destruct (decide (NOTFOUND = NOTFOUND)) as [_|]; [|done].
    cbn. by case_decide. }
  split.
  - eexists. apply elem_of_app. left. apply list_elem_of_fmap.
    exists n. split; [reflexivity|].
    apply list_elem_of_In, filter_In. split; [by apply list_elem_of_In|done].
  - intros info [Hin|Hin]%elem_of_app.
    + apply list_elem_of_fmap in Hin as (n' & [= <- ->] & _).
      subst step_ids. fold mapping in Hnot. rewrite Hnot, Hinfo. done.
    + destruct (Forall2_elem_of_zip _ _ _ _ _ HF Hin) as [_ Hn'].
      apply list_elem_of_In, filter_In in Hn' as [_ Hn'].
      by destruct (selected_exclusive mapping n).
Qed.

End Updates.

(** ** Cancelling *)

Section Stop.
Context `{ext : Externals}.

(** The cancellation branch always returns and leaves the registry as it
    was; when [qdel] fails for a managed step it adds a warning to the
    log. *)
Lemma cancel_returns step_name stepmap st :
  ∃ w lg,
    cancel step_name stepmap st = (Return (), mkState w (step_mapping st) lg)
    ∧ (StepMap.managed stepmap = true →
       ∀ rc out err w',
         qdel [Py.str (StepMap.step_id stepmap)] (world st) = (rc, out, err, w') →
         rc ≠ 0 →
         ("warning",
          "Unable to cancel job step " +:+ step_name +:+ Py.nl +:+ " " +:+ err)
         ∈ lg).
Proof.
  unfold cancel. destruct (StepMap.managed stepmap); run_monad.
  - destruct (qdel _ (world st)) as [[[rc out] err] w'] eqn:E.
    cbn [world step_mapping log].
    destruct (decide (rc ≠ 0)) as [Hrc|Hrc];
      destruct (Py.truthy (StepMap.task_id stepmap));
      cbn [world step_mapping log]; eexists _, _; (split; [reflexivity|]);
      intros _ rc' out' err' w'' [= <- <- <- <-] Hrc'; try done;
      try (apply elem_of_app; right; apply list_elem_of_singleton; reflexivity).
  - eexists _, _. split; [reflexivity|]. done.
Qed.

(** A poll for one registered name returns exactly one pair, for that
    name, without touching registry or log. *)
Lemma get_step_update_single step_name stepmap st :
  step_mapping st !! step_name = Some stepmap →
  ∃ polled w,
    get_step_update [step_name] st
    = (Return [(step_name, polled)], mkState w (step_mapping st) (log st)).
Proof.
  intros Hreg.
  destruct (get_step_update_returns [step_name] st) as (us & w & Heq & HF).
  cbn [List.filter] in Heq, HF. unfold selected in Heq, HF.
  rewrite Hreg in Heq, HF.
  destruct (StepMap.managed stepmap); cbn in Heq, HF.
  - apply Forall2_nil_inv_l in HF as ->. eauto.
  - apply Forall2_cons_inv_l in HF as (u & us' & _ & ->%Forall2_nil_inv_l & ->).
    eauto.
Qed.

(** [stop] on a registered name: cancel, poll once, overwrite the
    status of the polled [StepInfo]. *)
Lemma stop_registered step_name stepmap st :
  step_mapping st !! step_name = Some stepmap →
  ∃ st1 polled st2,
    cancel step_name stepmap st = (Return (), st1)
    ∧ get_step_update [step_name] st1 = (Return [(step_name, polled)], st2)
    ∧ stop step_name st = (Return (StepInfo.set_status "Cancelled" polled), st2)
    ∧ step_mapping st2 = step_mapping st
    ∧ log st2 = log st1.
Proof.
  intros Hreg.
  destruct (cancel_returns step_name stepmap st) as (w1 & lg & Hc & _).
  destruct (get_step_update_single step_name stepmap
              (mkState w1 (step_mapping st) lg) Hreg) as (polled & w2 & Hp).
  eexists _, polled, _. split; [exact Hc|]. split; [exact Hp|].
  split; [|done].
  unfold stop, StepMapping.getitem. run_monad. rewrite Hreg.
  unfold mbind, M_bind, bind in Hc, Hp. by rewrite Hc, Hp.
Qed.

(** C2.  For a registered name, [stop] returns (it does not raise),
    whatever return code the cancel command gives, and the [StepInfo] it
    returns has status [Cancelled] whatever status the poll reported;
    when the step is managed and [qdel] exits non-zero, the failure is in
    the log as a warning. *)
Theorem stop_returns_cancelled (step_name : string) (stepmap : StepMap.t)
    (st : LauncherState) :
  step_mapping st !! step_name = Some stepmap →
  ∃ info st',
    stop step_name st = (Return info, st')
    ∧ StepInfo.status info = "Cancelled"
    ∧ (StepMap.managed stepmap = true →
       ∀ rc out err w',
         qdel [Py.str (StepMap.step_id stepmap)] (world st) = (rc, out, err, w') →
         rc ≠ 0 →
         ("warning",
          "Unable to cancel job step " +:+ step_name +:+ Py.nl +:+ " " +:+ err)
         ∈ log st').
Proof.
  intros Hreg.
  destruct (stop_registered step_name stepmap st Hreg)
    as (st1 & polled & st2 & Hc & Hp & Hs & _ & Hlog).
  exists (StepInfo.set_status "Cancelled" polled), st2.
  split; [done|]. split; [done|].
  destruct (cancel_returns step_name stepmap st) as (w1 & lg & Hc' & Hw).
  rewrite Hc in Hc'. injection Hc' as ->. rewrite Hlog. exact Hw.
Qed.

(** C10.  For a registered name, the [StepInfo] that [stop] returns is
    the one its poll after the cancellation obtained, with the status
    replaced: return code, output and error are those of the poll. *)
Theorem stop_changes_status_only (step_name : string) (stepmap : StepMap.t)
    (st : LauncherState) :
  step_mapping st !! step_name = Some stepmap →
  ∃ st1 polled st2 info,
    cancel step_name stepmap st = (Return (), st1)
    ∧ get_step_update [step_name] st1 = (Return [(step_name, polled)], st2)
    ∧ stop step_name st = (Return info, st2)
    ∧ info = StepInfo.set_status "Cancelled" polled
    ∧ StepInfo.returncode info = StepInfo.returncode polled
    ∧ StepInfo.output info = StepInfo.output polled
    ∧ StepInfo.error info = StepInfo.error polled.
Proof.
  intros Hreg.
  destruct (stop_registered step_name stepmap st Hreg)
    as (st1 & polled & st2 & Hc & Hp & Hs & _).
  exists st1, polled, st2, (StepInfo.set_status "Cancelled" polled).
  by repeat split.
Qed.

End Stop.

(** ** Launching *)

Section Run.
Context `{ext : Externals}.

Lemma attempt_world_shift interval w0 k :
  attempt_world interval w0 (S k)
  = attempt_world interval (sleep interval (qstat listing w0).2) k.
Proof.
  induction k as [|k IH]; [done|].
  cbn [attempt_world] in *. by rewrite IH.
Qed.

Lemma attempt_shift step interval w0 k :
  attempt step interval w0 (S k)
  = attempt step interval (sleep interval (qstat listing w0).2) k.
Proof. unfold attempt. by rewrite attempt_world_shift. Qed.

(** The loop stops at the first attempt that parses an identifier. *)
Lemma poll_found step interval trials :
  ∀ w0 k step_id mapping lg,
    (k < trials)%nat →
    (∀ j, (j < k)%nat → Py.truthy (attempt step interval w0 j) = false) →
    Py.truthy (attempt step interval w0 k) = true →
    poll_step_id step interval trials step_id (mkState w0 mapping lg)
    = (Return (attempt step interval w0 k),
       mkState (qstat listing (attempt_world interval w0 k)).2 mapping lg).
Proof.
  induction trials as [|trials IH]; intros w0 k sid mapping lg Hk Hfail Hok;
    [lia|].
  cbn [poll_step_id]. run_monad. fold listing. cbn [world step_mapping log].
  destruct k as [|k].
  - unfold attempt in *. cbn [attempt_world] in *.
    destruct (qstat listing w0) as [[out err] w'].
    cbn [fst snd] in *. by rewrite Hok.
  - pose proof (Hfail 0%nat ltac:(lia)) as H0.
    unfold attempt in H0. cbn [attempt_world] in H0.
    rewrite attempt_shift, attempt_world_shift.
    rewrite <- (IH (sleep interval (qstat listing w0).2) k
                   (parse_step_id_from_qstat (qstat listing w0).1.1 (name step))
                   mapping lg); [| lia | | by rewrite <- attempt_shift].
    + destruct (qstat listing w0) as [[out err] w'].
      cbn [fst snd] in *. by rewrite H0.
    + intros j Hj. rewrite <- attempt_shift. apply Hfail. lia.
Qed.

(** When no attempt parses an identifier, the loop ends after [trials]
    queries and sleeps with a value that is not an identifier. *)
Lemma poll_exhausted step interval trials :
  ∀ w0 step_id mapping lg,
    (∀ j, (j < trials)%nat → Py.truthy (attempt step interval w0 j) = false) →
    ∃ v,
      poll_step_id step interval trials step_id (mkState w0 mapping lg)
      = (Return v, mkState (attempt_world interval w0 trials) mapping lg)
      ∧ ((0 < trials)%nat → Py.truthy v = false).
Proof.
  induction trials as [|trials IH]; intros w0 sid mapping lg Hfail.
  - exists sid. split; [done|lia].
  - cbn [poll_step_id]. run_monad. fold listing. cbn [world step_mapping log].
    pose proof (Hfail 0%nat ltac:(lia)) as H0.
    unfold attempt in H0. cbn [attempt_world] in H0.
    destruct (IH (sleep interval (qstat listing w0).2)
                 (parse_step_id_from_qstat (qstat listing w0).1.1 (name step))
                 mapping lg) as (v & Hv & Hfalsy).
    { intros j Hj. rewrite <- attempt_shift. apply Hfail. lia. }
    rewrite attempt_world_shift.
    destruct (qstat listing w0) as [[out err] w'] eqn:E.
    cbn [fst snd] in *. rewrite H0.
    exists v. split; [exact Hv|]. intros _.
    destruct trials as [|trials]; [|apply Hfalsy; lia].
    cbn in Hv. by injection Hv as <-.
Qed.

(** [run] up to the branch on the step class. *)
Lemma run_prepared step st cmd_list w :
  prepared step (world st) = (cmd_list, w) →
  run step st
  = (('(step_id, task_id) ←
        (if is_QsubBatchStep step then submit_batch step cmd_list
         else spawn_task step cmd_list);
      step_id ←
        (if negb (Py.truthy step_id) && managed step
         then _get_pbs_step_id step 2 5
         else mret step_id);
      set_mapping (StepMapping.add (name step) step_id task_id (managed step));;
      mret step_id)
     (mkState w (step_mapping st) (log st))).
Proof.
  unfold prepared, run. intros Hp.
  unfold mbind at 1 2 3, M_bind at 1 2 3, bind at 1 2 3, read, call.
  destruct (actively_monitoring (world st)); cbn [negb] in *.
  - unfold mret, M_ret, ret. by rewrite Hp.
  - unfold call_. cbn [world step_mapping log]. by rewrite Hp.
Qed.

Lemma app_cons_str c (s t : string) : String c s +:+ t = String c (s +:+ t).
Proof. reflexivity. Qed.

Lemma includes_end before s : includes (before +:+ s) s.
Proof.
  exists before, "". f_equal. induction s as [|c s IH]; [done|].
  by rewrite app_cons_str, <- IH.
Qed.

Lemma app_assoc_str (a b c : string) : (a +:+ b) +:+ c = a +:+ b +:+ c.
Proof.
  induction a as [|x a IH]; [done|]. by rewrite !app_cons_str, IH.
Qed.

(** C5.  For a batch step, [run] executes the submission command with
    the task manager's blocking [start_and_wait]; when its return code
    is not zero, [run] raises [LauncherError] with a message that
    contains the captured output and the captured error, and the
    registry is left as it was. *)
Theorem run_submission_failure (step : Step) (st : LauncherState)
    (cmd_list : list string) (w w' : World) (rc : Z) (out err : string) :
  is_QsubBatchStep step = true →
  prepared step (world st) = (cmd_list, w) →
  start_and_wait cmd_list (cwd step) w = (rc, out, err, w') →
  rc ≠ 0 →
  ∃ msg,
    run step st
    = (Raise (LauncherError msg), mkState w' (step_mapping st) (log st))
    ∧ includes msg out
    ∧ includes msg err.
Proof.
  intros Hbatch Hp Hsub Hrc.
  rewrite (run_prepared _ _ _ _ Hp), Hbatch.
  unfold submit_batch. run_monad. cbn [world step_mapping log].
  rewrite Hsub. rewrite decide_True by done.
  eexists. split; [reflexivity|]. split.
  - exists ("Qsub batch submission failed" +:+ Py.nl +:+ " "),
           (Py.nl +:+ " " +:+ err).
    by rewrite !app_assoc_str.
  - rewrite <- !app_assoc_str. apply includes_end.
Qed.

Lemma get_pbs_step_id_found step interval trials w1 mapping lg k :
  (k < Z.to_nat trials)%nat →
  (∀ j, (j < k)%nat →
        Py.truthy (attempt step interval (sleep interval w1) j) = false) →
  Py.truthy (attempt step interval (sleep interval w1) k) = true →
  _get_pbs_step_id step interval trials (mkState w1 mapping lg)
  = (Return (attempt step interval (sleep interval w1) k),
     mkState (qstat listing (attempt_world interval (sleep interval w1) k)).2
             mapping lg).
Proof.
  intros Hk Hfail Hok. unfold _get_pbs_step_id.
  unfold mbind at 1 2, M_bind at 1 2, bind at 1 2, call_.
  cbn [world step_mapping log].
  rewrite (poll_found step interval (Z.to_nat trials) _ k) by done.
  by rewrite Hok.
Qed.

Lemma get_pbs_step_id_exhausted step interval trials w1 mapping lg :
  (0 < Z.to_nat trials)%nat →
  (∀ j, (j < Z.to_nat trials)%nat →
        Py.truthy (attempt step interval (sleep interval w1) j) = false) →
  _get_pbs_step_id step interval trials (mkState w1 mapping lg)
  = (Raise (LauncherError "Could not find id of launched job step"),
     mkState (attempt_world interval (sleep interval w1) (Z.to_nat trials))
             mapping lg).
Proof.
  intros Hpos Hfail. unfold _get_pbs_step_id.
  unfold mbind at 1 2, M_bind at 1 2, bind at 1 2, call_.
  cbn [world step_mapping log].
  destruct (poll_exhausted step interval (Z.to_nat trials) (sleep interval w1)
              (Some "unassigned") mapping lg Hfail) as (v & -> & Hv).
  by rewrite (Hv Hpos).
Qed.

(** A batch step whose submission succeeded without printing an
    identifier: [run] goes on to resolve the identifier with the
    defaults of [_get_pbs_step_id] and registers what it returns. *)
Lemma run_unresolved step st cmd_list w w1 out err :
  is_QsubBatchStep step = true →
  prepared step (world st) = (cmd_list, w) →
  start_and_wait cmd_list (cwd step) w = (0, out, err, w1) →
  Py.strip out = "" →
  ∃ lg,
    run step st
    = match _get_pbs_step_id step 2 5 (mkState w1 (step_mapping st) lg) with
      | (Return step_id, st') =>
          (Return step_id,
           mkState (world st')
             (StepMapping.add (name step) step_id None true (step_mapping st'))
             (log st'))
      | (Raise e, st') => (Raise e, st')
      end.
Proof.
  intros Hbatch Hp Hsub Hstrip.
  rewrite (run_prepared _ _ _ _ Hp), Hbatch.
  assert (managed step = true) as Hm by (by destruct step).
  unfold submit_batch. run_monad.
  cbn [world step_mapping log]. rewrite Hsub. rewrite decide_False by lia.
  rewrite Hm.
  destruct (Py.truthy_str out).
  - rewrite Hstrip.
    cbn [world step_mapping log Py.truthy Py.truthy_str negb andb].
    eexists. reflexivity.
  - cbn [world step_mapping log Py.truthy negb andb].
    eexists. reflexivity.
Qed.

(** C1.  For a batch step whose submission returns 0 without printing
    an identifier, [run] sleeps 2 seconds and then queries the
    scheduler's listing at most 5 times, sleeping 2 seconds after every
    query that does not show the step's name.  If attempt [k] of these
    5 is the first to show it, [run] returns the identifier parsed there
    and registers the step under it as managed; if none of the 5 shows
    it, [run] raises [LauncherError] and the registry is left as it was. *)
Theorem run_resolves_step_id (step : Step) (st : LauncherState)
    (cmd_list : list string) (w w1 : World) (out err : string) :
  is_QsubBatchStep step = true →
  prepared step (world st) = (cmd_list, w) →
  start_and_wait cmd_list (cwd step) w = (0, out, err, w1) →
  Py.strip out = "" →
  let w0 := sleep 2 w1 in
  (∀ k, (k < 5)%nat →
        (∀ j, (j < k)%nat → Py.truthy (attempt step 2 w0 j) = false) →
        Py.truthy (attempt step 2 w0 k) = true →
        ∃ st',
          run step st = (Return (attempt step 2 w0 k), st')
          ∧ world st' = (qstat listing (attempt_world 2 w0 k)).2
          ∧ step_mapping st'
            = <[name step := StepMap.mk (attempt step 2 w0 k) None true]>
                (step_mapping st))
  ∧ ((∀ j, (j < 5)%nat → Py.truthy (attempt step 2 w0 j) = false) →
     ∃ st',
       run step st
       = (Raise (LauncherError "Could not find id of launched job step"), st')
       ∧ world st' = attempt_world 2 w0 5
       ∧ step_mapping st' = step_mapping st).
Proof.
  intros Hbatch Hp Hsub Hstrip w0.
  destruct (run_unresolved step st cmd_list w w1 out err Hbatch Hp Hsub Hstrip)
    as (lg & Hrun).
  split.
  - intros k Hk Hfail Hok. rewrite Hrun.
    rewrite (get_pbs_step_id_found step 2 5 w1 _ lg k) by done.
    eexists. split; [reflexivity|]. done.
  - intros Hfail. rewrite Hrun.
    rewrite (get_pbs_step_id_exhausted step 2 5 w1 _ lg)
      by (done || (cbn; lia)).
    eexists. split; [reflexivity|]. done.
Qed.

(** The direct-run branch: two files opened, one task started. *)
Lemma spawn_task_eq step cmd_list st out err output error task_id w2 w3 w4 :
  get_output_files step = (out, err) →
  open out "w+" (world st) = (output, w2) →
  open err "w+" w2 = (error, w3) →
  start_task cmd_list (cwd step) output error w3 = (task_id, w4) →
  spawn_task step cmd_list st
  = (Return (None, Some task_id), mkState w4 (step_mapping st) (log st)).
Proof.
  intros Hf Ho He Ht. unfold spawn_task. rewrite Hf. run_monad.
  rewrite Ho. cbn [world step_mapping log]. rewrite He.
  cbn [world step_mapping log]. by rewrite Ht.
Qed.

(** C8.  For a step that is not a batch step, [run] returns [None], and
    the registry entry of the step's name holds the task id returned by
    the [start_task] that spawned the launch command, no step id, and
    the flag unmanaged; and whenever [run] returns an identifier that is
    not [None], the step is managed. *)
Theorem run_direct_step (step : Step) (st : LauncherState) :
  (is_QsubBatchStep step = false →
   let '(cmd_list, w) := prepared step (world st) in
   let '(out, err) := get_output_files step in
   let '(output, w2) := open out "w+" w in
   let '(error, w3) := open err "w+" w2 in
   let '(task_id, w4) := start_task cmd_list (cwd step) output error w3 in
   run step st
   = (Return None,
      mkState w4
        (<[name step := StepMap.mk None (Some task_id) false]> (step_mapping st))
        (log st)))
  ∧ (∀ step_id st',
       run step st = (Return (Some step_id), st') → managed step = true).
Proof.
  assert (is_QsubBatchStep step = false → ∃ st', run step st = (Return None, st')
          ∧ let '(cmd_list, w) := prepared step (world st) in
            let '(out, err) := get_output_files step in
            let '(output, w2) := open out "w+" w in
            let '(error, w3) := open err "w+" w2 in
            let '(task_id, w4) := start_task cmd_list (cwd step) output error w3 in
            st' = mkState w4
                    (<[name step := StepMap.mk None (Some task_id) false]>
                       (step_mapping st))
                    (log st))
    as Hdirect.
  { intros Hbatch.
    destruct (prepared step (world st)) as [cmd_list w] eqn:Hp.
    rewrite (run_prepared _ _ _ _ Hp), Hbatch.
    assert (managed step = false) as Hm by (by destruct step).
    destruct (get_output_files step) as [out err] eqn:Hf.
    destruct (open out "w+" w) as [output w2] eqn:Ho.
    destruct (open err "w+" w2) as [error w3] eqn:He.
    destruct (start_task cmd_list (cwd step) output error w3) as [task_id w4] eqn:Ht.
    unfold mbind at 1, M_bind at 1, bind at 1.
    rewrite (spawn_task_eq step cmd_list _ out err output error task_id w2 w3 w4)
      by done.
    rewrite Hm. run_monad. cbn [world step_mapping log Py.truthy negb andb].
    eexists. split; reflexivity. }
  split.
  - intros Hbatch. destruct (Hdirect Hbatch) as (st' & -> & Hst').
    destruct (prepared step (world st)) as [cmd_list w].
    destruct (get_output_files step) as [out err].
    destruct (open out "w+" w) as [output w2].
    destruct (open err "w+" w2) as [error w3].
    destruct (start_task cmd_list (cwd step) output error w3) as [task_id w4].
    by rewrite Hst'.
  - intros sid st' Hrun.
    destruct (is_QsubBatchStep step) eqn:Hbatch; [by destruct step|].
    destruct (Hdirect eq_refl) as (st'' & Hrun' & _). congruence.
Qed.

End Run.

(** ** Creating steps *)

Section CreateStep.
Context `{ext : Externals}.

(** C6, as the code has it.  For settings of a kind the backend does not
    support, [create_step] raises at once and yields no step; for
    settings of a supported kind that lack something the step class
    requires, the class's configuration error is caught and
    [create_step] raises [LauncherError] with the message
    "Job step creation failed: " followed by that error's message, and
    yields no step; and whenever [create_step] yields a step, the kind
    is supported and nothing is missing. *)
Theorem create_step_fails_fast (name cwd : string) (step_settings : Settings) :
  (supported (settings_class step_settings) = false →
   ∃ e, create_step name cwd step_settings = Raise e)
  ∧ (supported (settings_class step_settings) = true →
     ∀ msg, config_error step_settings = Some msg →
       create_step name cwd step_settings
       = Raise (LauncherError ("Job step creation failed: " +:+ msg)))
  ∧ (∀ step, create_step name cwd step_settings = Return step →
       supported (settings_class step_settings) = true
       ∧ config_error step_settings = None).
Proof.
  unfold create_step, new.
  destruct (settings_class step_settings); cbn [supported];
    (split; [|split]); try done; try (intros _; eauto; fail).
  all: try (intros _ msg ->; reflexivity).
  all: intros step; destruct (config_error step_settings); done.
Qed.

End CreateStep.

(** ** The properties on the example scheduler *)

Section Examples.

(** The scenario of section 8: a managed job whose raw state means
    finished, and an unmanaged one that exited with code 1. *)
Example poll_finished_and_failed :
  (get_step_update ["job_1"; "job_0"] (Fake.launcher None "F" 0 Fake.registry)).1
  = Return [("job_0", StepInfo.mk "Completed" (Some 0) None None);
            ("job_1", StepInfo.mk "Failed" (Some 1) (Some "job_1.out")
                        (Some "job_1.err"))].
Proof. reflexivity. Qed.

(** [qsub] prints the job id: [run] strips and returns it without asking
    the scheduler. *)
Example run_gleans_step_id :
  run (Fake.job_0 []) (Fake.launcher None "R" 0 ∅)
  = (Return (Some "42.pbs"),
     mkState (Fake.mk true 0 0 [] None "R" 0 : @World Fake.externals)
       (<["job_0" := StepMap.mk (Some "42.pbs") None true]> ∅)
       [("debug", "Gleaned batch job id: 42.pbs for job_0")]).
Proof. reflexivity. Qed.

(** The listing shows the job at the third of five attempts: [run]
    returns its id after three queries and six seconds of sleep; the
    listing never shows it: [run] raises after five queries. *)
Lemma run_resolves_step_id_witness :
  (∃ st',
     run (Fake.job_0 ["--silent"]) (Fake.launcher (Some 3%nat) "R" 0 ∅)
     = (Return (Some "42.pbs"), st')
     ∧ world st' = Fake.mk true 6 3 [] (Some 3%nat) "R" 0
     ∧ step_mapping st'
       = <["job_0" := StepMap.mk (Some "42.pbs") None true]> ∅)
  ∧ (∃ st',
       run (Fake.job_0 ["--silent"]) (Fake.launcher None "R" 0 ∅)
       = (Raise (LauncherError "Could not find id of launched job step"), st')
       ∧ world st' = Fake.mk true 12 5 [] None "R" 0
       ∧ step_mapping st' = ∅).
Proof.
  split.
  - edestruct (run_resolves_step_id (ext:=Fake.externals)
                 (Fake.job_0 ["--silent"]) (Fake.launcher (Some 3%nat) "R" 0 ∅))
      as [Hfound _]; [reflexivity..|].
    destruct (Hfound 2%nat) as (st' & Hrun & Hw & Hm).
    + lia.
    + intros [|[|j]] Hj; [reflexivity|reflexivity|lia].
    + reflexivity.
    + exists st'. split; [exact Hrun|]. split; [exact Hw|exact Hm].
  - edestruct (run_resolves_step_id (ext:=Fake.externals)
                 (Fake.job_0 ["--silent"]) (Fake.launcher None "R" 0 ∅))
      as [_ Hnever]; [reflexivity..|].
    destruct Hnever as (st' & Hrun & Hw & Hm).
    + intros [|[|[|[|[|j]]]]] Hj; try reflexivity. lia.
    + exists st'. split; [exact Hrun|]. split; [exact Hw|exact Hm].
Defined.

(** [qsub] rejects the submission with return code 1. *)
Lemma run_submission_failure_witness :
  ∃ msg,
    run (Fake.job_0 ["--reject"]) (Fake.launcher None "R" 0 ∅)
    = (Raise (LauncherError msg),
       mkState (Fake.mk true 0 0 [] None "R" 0 : @World Fake.externals) ∅ [])
    ∧ includes msg "submitting job_0"
    ∧ includes msg "qsub: Unknown queue".
Proof.
  apply (run_submission_failure (ext:=Fake.externals)
           (Fake.job_0 ["--reject"]) (Fake.launcher None "R" 0 ∅)
           ["qsub"; "--reject"] (Fake.mk true 0 0 [] None "R" 0)
           (Fake.mk true 0 0 [] None "R" 0) 1 "submitting job_0"
           "qsub: Unknown queue");
    [reflexivity|reflexivity|reflexivity|lia].
Defined.

(** [qdel] exits with 1 for the managed job: [stop] still returns, with
    the status [Cancelled] and a warning in the log. *)
Lemma stop_returns_cancelled_witness :
  ∃ info st',
    stop "job_0" (Fake.launcher None "R" 1 Fake.registry) = (Return info, st')
    ∧ StepInfo.status info = "Cancelled"
    ∧ ("warning",
       "Unable to cancel job step " +:+ "job_0" +:+ Py.nl +:+ " "
         +:+ "qdel: Unknown Job Id") ∈ log st'.
Proof.
  destruct (stop_returns_cancelled (ext:=Fake.externals) "job_0"
              Fake.managed_entry (Fake.launcher None "R" 1 Fake.registry) eq_refl)
    as (info & st' & Hstop & Hstatus & Hwarn).
  exists info, st'. split; [exact Hstop|]. split; [exact Hstatus|].
  apply (Hwarn eq_refl 1 "" "qdel: Unknown Job Id" (Fake.mk false 0 0 [] None "R" 1));
    [reflexivity|lia].
Defined.

(** The poll behind [stop] reports the unmanaged job as failed with
    code 1; [stop] keeps the code and the output and changes the status. *)
Lemma stop_changes_status_only_witness :
  ∃ st1 polled st2 info,
    cancel "job_1" Fake.unmanaged_entry (Fake.launcher None "R" 0 Fake.registry)
    = (Return (), st1)
    ∧ get_step_update ["job_1"] st1 = (Return [("job_1", polled)], st2)
    ∧ stop "job_1" (Fake.launcher None "R" 0 Fake.registry) = (Return info, st2)
    ∧ info = StepInfo.set_status "Cancelled" polled
    ∧ StepInfo.returncode info = StepInfo.returncode polled
    ∧ StepInfo.output info = StepInfo.output polled
    ∧ StepInfo.error info = StepInfo.error polled.
Proof.
  apply (stop_changes_status_only (ext:=Fake.externals) "job_1"
           Fake.unmanaged_entry (Fake.launcher None "R" 0 Fake.registry)).
  reflexivity.
Defined.

(** The scheduler no longer knows the managed job. *)
Lemma not_in_history_is_completed_witness :
  ∃ updates st',
    get_step_update ["job_1"; "job_0"] (Fake.launcher None "NOTFOUND" 0 Fake.registry)
    = (Return updates, st')
    ∧ (∃ info, ("job_0", info) ∈ updates)
    ∧ ∀ info, ("job_0", info) ∈ updates →
        StepInfo.status info = "Completed" ∧ StepInfo.returncode info = Some 0.
Proof.
  apply (not_in_history_is_completed (ext:=Fake.externals)
           ["job_1"; "job_0"] (Fake.launcher None "NOTFOUND" 0 Fake.registry) "job_0").
  - apply list_elem_of_In. cbn. tauto.
  - reflexivity.
  - reflexivity.
Defined.

(** C6 as stated fails: for settings of a supported kind that lack what
    the step class requires, [create_step] raises [LauncherError], which
    is not a configuration error. *)
Lemma create_step_raises_launcher_error :
  supported (settings_class Fake.empty_settings) = true
  ∧ @config_error Fake.externals Fake.empty_settings
    = Some "no launch parameters given"
  ∧ create_step (ext:=Fake.externals) "job_1" "/lus/scratch/run" Fake.empty_settings
    = Raise (LauncherError "Job step creation failed: no launch parameters given")
  ∧ ¬ ∃ msg,
        create_step (ext:=Fake.externals) "job_1" "/lus/scratch/run"
          Fake.empty_settings
        = Raise (SSConfigError msg).
Proof.
  split; [reflexivity|]. split; [reflexivity|]. split; [reflexivity|].
  intros [msg Hmsg]. discriminate Hmsg.
Qed.

(** For supported settings without launch parameters the error that
    reaches the caller is the [LauncherError] built by the [except] clause. *)
Lemma create_step_fails_fast_witness :
  create_step (ext:=Fake.externals) "job_1" "/lus/scratch/run" Fake.empty_settings
  = Raise (LauncherError
             ("Job step creation failed: " +:+ "no launch parameters given")).
Proof.
  exact (proj1 (proj2 (create_step_fails_fast (ext:=Fake.externals)
                         "job_1" "/lus/scratch/run" Fake.empty_settings))
           eq_refl "no launch parameters given" eq_refl).
Defined.

(** A request with an unknown name and a repeated one: the managed
    filter keeps [job_0], the unmanaged one both occurrences of [job_1]. *)
Lemma get_ids_spec_witness :
  StepMapping.get_ids Fake.registry ["ghost"; "job_1"; "job_0"; "job_1"] true
  = (["job_0"], [Some "42.pbs"])
  ∧ StepMapping.get_ids Fake.registry ["ghost"; "job_1"; "job_0"; "job_1"] false
    = (["job_1"; "job_1"], [Some "1000"; Some "1000"]).
Proof.
  pose proof (get_ids_spec Fake.registry ["ghost"; "job_1"; "job_0"; "job_1"] true)
    as Ht.
  pose proof (get_ids_spec Fake.registry ["ghost"; "job_1"; "job_0"; "job_1"] false)
    as Hf.
  destruct (StepMapping.get_ids _ _ true) as [ns ids].
  destruct (StepMapping.get_ids _ _ false) as [ns' ids'].
  destruct Ht as (-> & -> & _). destruct Hf as (-> & -> & _).
  split; reflexivity.
Defined.

(** The direct-run step [job_1]: no identifier, task [1000] registered. *)
Lemma run_direct_step_witness :
  run Fake.job_1 (Fake.launcher None "R" 0 ∅)
  = (Return None,
     mkState (Fake.mk true 0 0 [] None "R" 0 : @World Fake.externals)
       (<["job_1" := StepMap.mk None (Some "1000") false]> ∅) []).
Proof.
  exact (proj1 (run_direct_step (ext:=Fake.externals) Fake.job_1
                  (Fake.launcher None "R" 0 ∅)) eq_refl).
Defined.

(** A poll for the managed job alone gives one pair. *)
Lemma get_step_update_spec_witness :
  ∃ info st',
    get_step_update ["job_0"] (Fake.launcher None "R" 0 Fake.registry)
    = (Return [("job_0", info)], st')
    ∧ StepInfo.status info ∈ canonical_statuses.
Proof.
  destruct (get_step_update_spec (ext:=Fake.externals) ["job_0"]
              (Fake.launcher None "R" 0 Fake.registry))
    as (ms & us & st' & Hrun & _ & _ & _ & _ & _ & Hone).
  destruct (Hone "job_0" eq_refl eq_refl) as (info & Heq & Hcanon).
  exists info, st'. split; [|exact Hcanon]. rewrite Hrun. by rewrite Heq.
Defined.

(** The scheduler reports the managed job as failed: the poll carries no
    return code for it. *)
Lemma managed_update_returncode_witness :
  ∃ updates st',
    get_step_update ["job_0"] (Fake.launcher None "X" 0 Fake.registry)
    = (Return updates, st')
    ∧ ∀ info, ("job_0", info) ∈ updates →
        (StepInfo.status info = "Completed" → StepInfo.returncode info = Some 0)
        ∧ (StepInfo.status info ≠ "Completed" → StepInfo.returncode info = None).
Proof.
  destruct (managed_update_returncode (ext:=Fake.externals) ["job_0"]
              (Fake.launcher None "X" 0 Fake.registry))
    as (updates & st' & Hrun & Hrc).
  exists updates, st'. split; [exact Hrun|].
  intros info Hin. exact (Hrc "job_0" info Hin eq_refl).
Defined.

End Examples.

(** * Further properties of the launcher *)

(** ** Identifier resolution for any budget *)

Section Resolution.
Context `{ext : Externals}.

(** The loop always ends, leaves registry and log alone, and ends in one
    of three ways: it never ran, it found an identifier, or it used up
    its trials. *)
Lemma poll_step_id_outcomes step interval trials :
  ∀ w0 step_id mapping lg,
    ∃ v w',
      poll_step_id step interval trials step_id (mkState w0 mapping lg)
      = (Return v, mkState w' mapping lg)
      ∧ ((trials = 0%nat ∧ v = step_id ∧ w' = w0)
         ∨ Py.truthy v = true
         ∨ ((0 < trials)%nat ∧ Py.truthy v = false
            ∧ w' = attempt_world interval w0 trials
            ∧ ∀ j, (j < trials)%nat →
                   Py.truthy (attempt step interval w0 j) = false)).
Proof.
  induction trials as [|trials IH]; intros w0 sid mapping lg.
  - exists sid, w0. split; [done|]. by left.
  - cbn [poll_step_id]. run_monad. fold listing. cbn [world step_mapping log].
    assert (attempt step interval w0 0
            = parse_step_id_from_qstat (qstat listing w0).1.1 (name step))
      as H0 by done.
    destruct (IH (sleep interval (qstat listing w0).2)
                 (parse_step_id_from_qstat (qstat listing w0).1.1 (name step))
                 mapping lg) as (v & w' & Hv & Hcases).
    destruct (qstat listing w0) as [[out err] w1] eqn:Hq. cbn [fst snd] in *.
    destruct (Py.truthy (parse_step_id_from_qstat out (name step))) eqn:Ht.
    + eexists _, _. split; [reflexivity|]. right. by left.
    + exists v, w'. split; [exact Hv|].
      destruct Hcases as [(-> & -> & ->)|[Hok|(Hpos & Hf & -> & Hall)]].
      * right. right. split; [lia|]. split; [done|].
        split; [cbn; by rewrite Hq|].
        intros j Hj. assert (j = 0%nat) as -> by lia. by rewrite H0.
      * right. by left.
      * right. right. split; [lia|]. split; [done|].
        split; [rewrite attempt_world_shift; by rewrite Hq|].
        intros [|j] Hj; [by rewrite H0|].
        rewrite attempt_shift, Hq. apply Hall. lia.
Qed.

(** [_get_pbs_step_id] in terms of what its loop ends with. *)
Lemma get_pbs_step_id_unfold step interval trials st :
  ∃ v w',
    _get_pbs_step_id step interval trials st
    = (if negb (Py.truthy v)
       then raise (LauncherError "Could not find id of launched job step")
       else mret v) (mkState w' (step_mapping st) (log st))
    ∧ ((Z.to_nat trials = 0%nat ∧ v = Some "unassigned")
       ∨ Py.truthy v = true
       ∨ ((0 < Z.to_nat trials)%nat ∧ Py.truthy v = false
          ∧ w' = attempt_world interval (sleep interval (world st))
                   (Z.to_nat trials)
          ∧ ∀ j, (j < Z.to_nat trials)%nat →
                 Py.truthy (attempt step interval (sleep interval (world st)) j)
                 = false)).
Proof.
  destruct (poll_step_id_outcomes step interval (Z.to_nat trials)
              (sleep interval (world st)) (Some "unassigned")
              (step_mapping st) (log st)) as (v & w' & Hp & Hcases).
  exists v, w'. split.
  - unfold _get_pbs_step_id.
    unfold mbind at 1 2, M_bind at 1 2, bind at 1 2, call_.
    cbn [world step_mapping log]. by rewrite Hp.
  - destruct Hcases as [(? & ? & ?)|[?|?]]; auto.
Qed.



End Resolution.

(** ** What [run] does to the registry *)

Section RunOutcomes.
Context `{ext : Externals}.

Lemma strip_empty : Py.strip "" = "".
Proof. reflexivity. Qed.


Lemma truthy_str_empty s : Py.truthy_str s = false → s = "".
Proof. by destruct s. Qed.

(** [run] either raises [LauncherError], which only happens to a batch
    step and leaves the registry as it was, or returns and has put
    exactly one entry, under the step's name, with the returned
    identifier: a non-empty string and no task id for a managed step,
    [None] and a task id for an unmanaged one. *)
Lemma run_cases step st :
  (∃ msg st',
     run step st = (Raise (LauncherError msg), st')
     ∧ step_mapping st' = step_mapping st
     ∧ is_QsubBatchStep step = true)
  ∨ (∃ r tid st',
       run step st = (Return r, st')
       ∧ step_mapping st'
         = <[name step := StepMap.mk r tid (managed step)]> (step_mapping st)
       ∧ (if managed step then Py.truthy r = true ∧ tid = None
          else r = None ∧ is_Some tid)).
Proof.
  destruct (prepared step (world st)) as [cmd_list w] eqn:Hp.
  rewrite (run_prepared _ _ _ _ Hp).
  destruct (is_QsubBatchStep step) eqn:Hbatch.
  - assert (managed step = true) as Hm by (by destruct step).
    rewrite Hm. unfold submit_batch. run_monad. cbn [world step_mapping log].
    destruct (start_and_wait cmd_list (cwd step) w) as [[[rc out] err] w1].
    destruct (decide (rc ≠ 0)) as [Hrc|Hrc].
    { left. eexists _, _. split; [reflexivity|]. done. }
    destruct (Py.truthy_str out) eqn:Hout;
      cbn [world step_mapping log Py.truthy negb andb].
    + destruct (Py.truthy_str (Py.strip out)) eqn:Hs; cbn [negb andb].
      * right. eexists _, _, _. split; [reflexivity|]. split; [done|].
        split; [exact Hs|done].
      * destruct (get_pbs_step_id_unfold step 2 5
                    (mkState w1 (step_mapping st)
                       (log st ++ [("debug",
                          "Gleaned batch job id: " +:+ Py.strip out +:+ " for "
                            +:+ name step)])))
          as (v & w' & -> & Hcases).
        destruct (Py.truthy v) eqn:Hv; cbn [negb].
        -- right. eexists _, _, _. split; [reflexivity|]. split; [done|].
           split; [exact Hv|done].
        -- left. eexists _, _. split; [reflexivity|]. done.
    + destruct (get_pbs_step_id_unfold step 2 5
                  (mkState w1 (step_mapping st) (log st)))
        as (v & w' & -> & Hcases).
      destruct (Py.truthy v) eqn:Hv; cbn [negb].
      * right. eexists _, _, _. split; [reflexivity|]. split; [done|].
        split; [exact Hv|done].
      * left. eexists _, _. split; [reflexivity|]. done.
  - assert (managed step = false) as Hm by (by destruct step).
    destruct (get_output_files step) as [out err] eqn:Hf.
    destruct (open out "w+" w) as [output w2] eqn:Ho.
    destruct (open err "w+" w2) as [error w3] eqn:He.
    destruct (start_task cmd_list (cwd step) output error w3) as [task_id w4] eqn:Ht.
    run_monad.
    rewrite (spawn_task_eq step cmd_list _ out err output error task_id w2 w3 w4)
      by done.
    rewrite Hm. cbn [world step_mapping log Py.truthy negb andb].
    right. eexists _, _, _. split; [reflexivity|]. split; [done|].
    split; [done|]. by eexists.
Qed.

(** X3.  Whatever [run] does, it raises nothing but [LauncherError];
    when it raises, the registry is as it was; when it returns, the entry
    of the step's name holds the returned identifier and the step's
    managed flag, and the entries of all other names are as they were. *)
Theorem run_registry_effect (step : Step) (st : LauncherState) :
  match run step st with
  | (Raise e, st') =>
      (∃ msg, e = LauncherError msg) ∧ step_mapping st' = step_mapping st
  | (Return r, st') =>
      (∃ stepmap,
         step_mapping st' !! name step = Some stepmap
         ∧ StepMap.step_id stepmap = r
         ∧ StepMap.managed stepmap = managed step)
      ∧ ∀ n, n ≠ name step → step_mapping st' !! n = step_mapping st !! n
  end.
Proof.
  destruct (run_cases step st)
    as [(msg & st' & -> & Hm & _)|(r & tid & st' & -> & Hm & _)].
  - split; [by exists msg|done].
  - rewrite Hm. split.
    + eexists. split; [apply lookup_insert_eq|done].
    + intros n Hn. by apply lookup_insert_ne.
Qed.

(** X4.  When [run] returns, the identifier is a non-empty string if the
    step is managed and [None] if it is not: a batch step is never
    registered without a usable step id. *)
Theorem run_result_truthy_iff_managed (step : Step) (st st' : LauncherState)
    (r : option string) :
  run step st = (Return r, st') →
  Py.truthy r = managed step ∧ (managed step = false → r = None).
Proof.
  intros Hrun.
  destruct (run_cases step st)
    as [(msg & st1 & Hr & _)|(r1 & tid & st1 & Hr & _ & Hshape)];
    rewrite Hr in Hrun; [done|].
  injection Hrun as -> ->.
  destruct (managed step).
  - destruct Hshape as [-> _]. done.
  - destruct Hshape as [-> _]. done.
Qed.

(** X5.  [run] keeps the registry well formed: if every managed entry
    holds a non-empty step id and every unmanaged entry a task id before,
    the same is true after, whether [run] returned or raised. *)
Theorem run_keeps_registry_ok (step : Step) (st : LauncherState) :
  registry_ok (step_mapping st) →
  registry_ok (step_mapping (run step st).2).
Proof.
  intros Hok.
  destruct (run_cases step st)
    as [(msg & st' & -> & Hm & _)|(r & tid & st' & -> & Hm & Hshape)];
    cbn [snd]; rewrite Hm; [done|].
  intros n e. destruct (decide (n = name step)) as [->|Hn].
  - rewrite lookup_insert_eq. intros [= <-]. unfold entry_ok. cbn.
    destruct (managed step); by destruct Hshape.
  - rewrite lookup_insert_ne by done. apply Hok.
Qed.

End RunOutcomes.

(** ** What a poll costs *)

Section PollCost.
Context `{ext : Externals}.

Lemma get_ids_unregistered (mapping : gmap string StepMap.t) step_names managed :
  (∀ n, n ∈ step_names → mapping !! n = None) →
  StepMapping.get_ids mapping step_names managed = ([], []).
Proof.
  induction step_names as [|n rest IH]; intros Hnone; [done|].
  cbn [StepMapping.get_ids]. rewrite IH.
  - by rewrite (Hnone n) by left.
  - intros n' Hn'. apply Hnone. by right.
Qed.

(** The poll of one registered name: one [qstat] with its step id if the
    entry is managed, one [get_task_update] with its task id if not. *)
Lemma get_step_update_one_eq n stepmap st :
  step_mapping st !! n = Some stepmap →
  get_step_update [n] st
  = if StepMap.managed stepmap then
      (Return [(n, managed_info
                     (parse_qstat_jobid
                        (qstat [StepMap.step_id stepmap] (world st)).1.1
                        (Py.str (StepMap.step_id stepmap))))],
       mkState (qstat [StepMap.step_id stepmap] (world st)).2
               (step_mapping st) (log st))
    else
      let '(stat, rc, out, err, w') :=
        get_task_update (StepMap.task_id stepmap) (world st) in
      (Return [(n, UnmanagedStepInfo stat rc out err)],
       mkState w' (step_mapping st) (log st)).
Proof.
  intros Hreg. unfold get_step_update. run_monad.
  cbn [StepMapping.get_ids]. rewrite Hreg.
  destruct (StepMap.managed stepmap) eqn:Hm; cbn [andb negb length].
  - destruct (decide (0 < 1)%nat) as [_|?]; [|lia].
    rewrite managed_step_update_eq.
    cbn [world step_mapping log map zip zip_with]. rewrite Hreg, Hm.
    cbn [andb negb length].
    destruct (decide (0 < 0)%nat) as [?|_]; [lia|]. reflexivity.
  - destruct (decide (0 < 0)%nat) as [?|_]; [lia|].
    rewrite Hreg, Hm. cbn [andb negb length].
    destruct (decide (0 < 1)%nat) as [_|?]; [|lia].
    cbn [_get_unmanaged_step_update]. run_monad.
    destruct (get_task_update (StepMap.task_id stepmap) (world st))
      as [[[[stat rc] out] err] w']. reflexivity.
Qed.

(** X6.  A request that names no registered step (the empty request
    included) returns the empty list and calls neither the scheduler nor
    the task manager: the launcher is left exactly as it was. *)
Theorem get_step_update_unregistered (step_names : list string)
    (st : LauncherState) :
  (∀ n, n ∈ step_names → step_mapping st !! n = None) →
  get_step_update step_names st = (Return [], st).
Proof.
  intros Hnone. unfold get_step_update. run_monad.
  rewrite !(get_ids_unregistered _ _ _ Hnone). cbn [length].
  destruct (decide (0 < 0)%nat) as [?|_]; [lia|].
  rewrite !(get_ids_unregistered _ _ _ Hnone). cbn [length].
  destruct (decide (0 < 0)%nat) as [?|_]; [lia|]. by destruct st.
Qed.

(** X7.  A request whose registered names are all managed, and at least
    one, is answered with a single [qstat] call that carries the step ids
    of all of them in request order; the task manager is not asked. *)
Theorem get_step_update_batched (step_names : list string) (st : LauncherState) :
  let mapping := step_mapping st in
  let s_names := List.filter (selected mapping true) step_names in
  let step_ids := map (entry_id mapping true) s_names in
  List.filter (selected mapping false) step_names = [] →
  s_names ≠ [] →
  get_step_update step_names st
  = (Return (map (λ n, (n, managed_info
                             (parse_qstat_jobid
                                (qstat step_ids (world st)).1.1
                                (Py.str (entry_id mapping true n)))))
                 s_names),
     mkState (qstat step_ids (world st)).2 mapping (log st)).
Proof.
  intros mapping s_names step_ids Hnone Hsome.
  unfold get_step_update. run_monad. fold mapping.
  pose proof (get_ids_names mapping step_names true) as Hsn.
  pose proof (get_ids_ids mapping step_names true) as Hsi.
  destruct (StepMapping.get_ids mapping step_names true) as [sn ids].
  cbn [fst snd] in Hsn, Hsi. fold s_names in Hsn. subst sn ids.
  fold step_ids.
  destruct (decide (0 < length step_ids)%nat) as [_|Hlen];
    [|subst step_ids; rewrite length_map in Hlen;
      destruct s_names; [done|cbn in Hlen; lia]].
  rewrite managed_step_update_eq. cbn [world step_mapping log]. fold mapping.
  pose proof (get_ids_names mapping step_names false) as Htn.
  pose proof (get_ids_ids mapping step_names false) as Hti.
  destruct (StepMapping.get_ids mapping step_names false) as [tn tids].
  cbn [fst snd] in Htn, Hti. rewrite Hnone in Htn. subst tn tids.
  cbn [map length]. destruct (decide (0 < 0)%nat) as [?|_]; [lia|].
  rewrite app_nil_r. f_equal. f_equal.
  subst step_ids. rewrite map_map. apply (zip_map_r (λ n, managed_info _)).
Qed.

End PollCost.

(** ** Launch, poll and cancel together *)

Section Lifecycle.
Context `{ext : Externals}.

(** The log after the cancellation branch. *)
Lemma cancel_log step_name stepmap st st1 :
  cancel step_name stepmap st = (Return (), st1) →
  log st1
  = log st
    ++ (if StepMap.managed stepmap then
          let '(rc, _, err, _) :=
            qdel [Py.str (StepMap.step_id stepmap)] (world st) in
          if decide (rc ≠ 0) then
            [("warning",
              "Unable to cancel job step " +:+ step_name +:+ Py.nl +:+ " " +:+ err)]
          else []
        else []).
Proof.
  unfold cancel. destruct (StepMap.managed stepmap); run_monad.
  - destruct (qdel _ (world st)) as [[[rc out] err] w'].
    cbn [world step_mapping log].
    destruct (decide (rc ≠ 0)); destruct (Py.truthy (StepMap.task_id stepmap));
      cbn [world step_mapping log]; intros [= <-]; cbn [log];
      by rewrite ?app_nil_r.
  - intros [= <-]. cbn [log]. by rewrite app_nil_r.
Qed.

(** X8.  After [run] has returned, a poll of the step's name returns
    exactly one pair: for a managed step it is built from one [qstat]
    call that carries the very identifier [run] returned; for an
    unmanaged step it is built from one [get_task_update] on the task id
    that [run] registered, and the scheduler is not asked. *)
Theorem run_then_poll (step : Step) (st st1 : LauncherState) (r : option string) :
  run step st = (Return r, st1) →
  (managed step = true →
   get_step_update [name step] st1
   = (Return [(name step,
               managed_info
                 (parse_qstat_jobid (qstat [r] (world st1)).1.1 (Py.str r)))],
      mkState (qstat [r] (world st1)).2 (step_mapping st1) (log st1)))
  ∧ (managed step = false →
     ∃ tid,
       step_mapping st1 !! name step = Some (StepMap.mk None (Some tid) false)
       ∧ get_step_update [name step] st1
         = let '(stat, rc, out, err, w') :=
             get_task_update (Some tid) (world st1) in
           (Return [(name step, UnmanagedStepInfo stat rc out err)],
            mkState w' (step_mapping st1) (log st1))).
Proof.
  intros Hrun.
  destruct (run_cases step st)
    as [(msg & st' & Hr & _)|(r1 & tid & st' & Hr & Hm & Hshape)];
    rewrite Hr in Hrun; [done|].
  injection Hrun as -> ->.
  assert (step_mapping st1 !! name step
          = Some (StepMap.mk r tid (managed step))) as Hreg
    by (rewrite Hm; apply lookup_insert_eq).
  split; intros Hmanaged; rewrite Hmanaged in Hreg, Hshape.
  - by rewrite (get_step_update_one_eq _ _ _ Hreg).
  - destruct Hshape as [-> [t ->]]. exists t. split; [done|].
    by rewrite (get_step_update_one_eq _ _ _ Hreg).
Qed.

(** X9.  After [run] has returned, [stop] on the step's name returns (the
    name is registered, so no [KeyError]) a [StepInfo] with status
    [Cancelled]. *)
Theorem run_then_stop (step : Step) (st st1 : LauncherState) (r : option string) :
  run step st = (Return r, st1) →
  ∃ info st2,
    stop (name step) st1 = (Return info, st2)
    ∧ StepInfo.status info = "Cancelled".
Proof.
  intros Hrun.
  destruct (run_cases step st)
    as [(msg & st' & Hr & _)|(r1 & tid & st' & Hr & Hm & _)];
    rewrite Hr in Hrun; [done|].
  injection Hrun as -> ->.
  assert (step_mapping st1 !! name step
          = Some (StepMap.mk r tid (managed step))) as Hreg
    by (rewrite Hm; apply lookup_insert_eq).
  destruct (stop_registered _ _ _ Hreg) as (sa & polled & sb & _ & _ & -> & _).
  eexists _, _. split; [reflexivity|done].
Qed.

(** X10.  [stop] on a name that is not registered raises [KeyError] for
    that name before anything else happens: no cancel command is issued,
    no task is removed, nothing is logged. *)
Theorem stop_unregistered (step_name : string) (st : LauncherState) :
  step_mapping st !! step_name = None →
  stop step_name st = (Raise (KeyError step_name), st).
Proof.
  intros Hnone. unfold stop, StepMapping.getitem. run_monad. by rewrite Hnone.
Qed.

(** X11.  [stop] never removes or changes a registry entry: after it the
    registry is what it was, so the stopped name can still be polled and
    a second [stop] on it returns [Cancelled] again instead of raising. *)
Theorem stop_keeps_registry (step_name : string) (stepmap : StepMap.t)
    (st : LauncherState) :
  step_mapping st !! step_name = Some stepmap →
  ∃ info st' info' st'',
    stop step_name st = (Return info, st')
    ∧ step_mapping st' = step_mapping st
    ∧ stop step_name st' = (Return info', st'')
    ∧ StepInfo.status info' = "Cancelled"
    ∧ step_mapping st'' = step_mapping st.
Proof.
  intros Hreg.
  destruct (stop_registered _ _ _ Hreg) as (sa & p1 & st' & _ & _ & Hs1 & Hm1 & _).
  assert (step_mapping st' !! step_name = Some stepmap) as Hreg'
    by (by rewrite Hm1).
  destruct (stop_registered _ _ _ Hreg') as (sb & p2 & st'' & _ & _ & Hs2 & Hm2 & _).
  eexists _, st', _, st''. split; [exact Hs1|]. split; [exact Hm1|].
  split; [exact Hs2|]. split; [done|]. by rewrite Hm2.
Qed.

(** X12.  What [stop] logs for a registered name: one warning, naming the
    step and carrying the error output of [qdel], when the entry is
    managed and [qdel] exits non-zero; nothing at all otherwise. *)
Theorem stop_log (step_name : string) (stepmap : StepMap.t) (st : LauncherState) :
  step_mapping st !! step_name = Some stepmap →
  log (stop step_name st).2
  = log st
    ++ (if StepMap.managed stepmap then
          let '(rc, _, err, _) :=
            qdel [Py.str (StepMap.step_id stepmap)] (world st) in
          if decide (rc ≠ 0) then
            [("warning",
              "Unable to cancel job step " +:+ step_name +:+ Py.nl +:+ " " +:+ err)]
          else []
        else []).
Proof.
  intros Hreg.
  destruct (stop_registered _ _ _ Hreg)
    as (st1 & polled & st2 & Hc & _ & -> & _ & Hlog).
  cbn [snd]. rewrite Hlog. by apply cancel_log.
Qed.

End Lifecycle.

(** ** The printed identifier, and the dispatch of [create_step] *)

Section Dispatch.
Context `{ext : Externals}.


(** X14.  [create_step] yields a step exactly when the settings are of a
    supported kind and the step class finds nothing missing, and the step
    it yields is of the class that belongs to the settings: an
    [AprunStep] for [AprunSettings], a [QsubBatchStep] for
    [QsubBatchSettings], a [MpirunStep] for [MpirunSettings]. *)
Theorem create_step_dispatch (name cwd : string) (step_settings : Settings) :
  ((∃ step, create_step name cwd step_settings = Return step)
   ↔ supported (settings_class step_settings) = true
     ∧ config_error step_settings = None)
  ∧ ∀ step, create_step name cwd step_settings = Return step →
      match step with
      | AprunStep _ _ _ => settings_class step_settings = AprunSettings
      | QsubBatchStep _ _ _ => settings_class step_settings = QsubBatchSettings
      | MpirunStep _ _ _ => settings_class step_settings = MpirunSettings
      end.
Proof.
  unfold create_step, new. split; [split|].
  - intros [step Hstep].
    destruct (settings_class step_settings); cbn [supported];
      destruct (config_error step_settings); done.
  - intros [Hs Hc]. rewrite Hc.
    destruct (settings_class step_settings); cbn [supported] in Hs;
      try done; by eexists.
  - intros step.
    destruct (settings_class step_settings);
      destruct (config_error step_settings); try done;
      by intros [= <-].
Qed.

(** X15.  For settings of an unsupported kind [create_step] raises
    [TypeError] with a message that names the settings type; the [except]
    clause does not turn it into [LauncherError], and the step classes are
    not consulted. *)
Theorem create_step_unsupported (name cwd : string) (step_settings : Settings) :
  supported (settings_class step_settings) = false →
  create_step name cwd step_settings
  = Raise (TypeError ("RunSettings type "
                        +:+ type_repr (settings_class step_settings)
                        +:+ " not supported by PBSPro")).
Proof.
  unfold create_step. by destruct (settings_class step_settings).
Qed.

End Dispatch.

(** * Ensembles *)

Section EnsembleParameters.

Lemma read_items_ok items :
  ∀ param_names parameters,
    forallb (λ kv, Ensemble.acceptable kv.2) items = true →
    Ensemble.read_items items param_names parameters
    = Ensemble.Ok (param_names ++ map fst items,
                   parameters ++ map (λ kv, Ensemble.as_list kv.2) items).
Proof.
  induction items as [|[k v] rest IH]; intros ns ps Hall.
  - cbn. by rewrite !app_nil_r.
  - cbn [forallb] in Hall. apply andb_prop in Hall as [Hv Hrest].
    cbn [Ensemble.read_items map fst snd].
    destruct v; try discriminate Hv; rewrite (IH _ _ Hrest);
      by rewrite <- !app_assoc.
Qed.

Lemma read_items_bad items :
  ∀ param_names parameters,
    forallb (λ kv, Ensemble.acceptable kv.2) items = false →
    Ensemble.read_items items param_names parameters
    = Ensemble.Err
        (Ensemble.TypeError ("Incorrect type for ensemble parameters" +:+ Py.nl
                               +:+ "Must be list, int, or string.")).
Proof.
  induction items as [|[k v] rest IH]; intros ns ps Hall; [done|].
  cbn [forallb] in Hall. cbn [Ensemble.read_items].
  destruct v; cbn in Hall; try done; by apply IH.
Qed.

(** X16.  For parameters given as a dictionary, [_read_model_parameters]
    returns the keys in the order of the dictionary and, position by
    position, the candidate values of each key: a list as it is, an
    integer, a boolean or a string wrapped into a one-element list.  It
    raises [TypeError] exactly when some value is of another type (a
    float, [None], a dictionary), and then returns nothing, even for the
    keys that came before. *)
Theorem read_model_parameters_spec (self : Ensemble.t)
    (items : list (Ensemble.value * Ensemble.value)) :
  Ensemble.params self = Ensemble.VDict items →
  (forallb (λ kv, Ensemble.acceptable kv.2) items = true →
   Ensemble._read_model_parameters self
   = Ensemble.Ok (map fst items, map (λ kv, Ensemble.as_list kv.2) items))
  ∧ (forallb (λ kv, Ensemble.acceptable kv.2) items = false →
     Ensemble._read_model_parameters self
     = Ensemble.Err
         (Ensemble.TypeError ("Incorrect type for ensemble parameters" +:+ Py.nl
                                +:+ "Must be list, int, or string."))).
Proof.
  intros Hp. unfold Ensemble._read_model_parameters. rewrite Hp. split.
  - intros Hall. by rewrite (read_items_ok _ [] [] Hall).
  - intros Hbad. by apply read_items_bad.
Qed.

(** X17.  Reading parameters is a normalisation: when
    [_read_model_parameters] returns names and value lists, an ensemble
    whose parameters are those names with those lists reads back exactly
    the same names and value lists. *)
Theorem read_model_parameters_idempotent (self : Ensemble.t)
    (param_names : list Ensemble.value) (parameters : list (list Ensemble.value)) :
  Ensemble._read_model_parameters self = Ensemble.Ok (param_names, parameters) →
  Ensemble._read_model_parameters
    (Ensemble.set_params
       (Ensemble.VDict (zip param_names (map Ensemble.VList parameters))) self)
  = Ensemble.Ok (param_names, parameters).
Proof.
  unfold Ensemble._read_model_parameters at 1.
  destruct (Ensemble.params self) as [| | | | |items| |] eqn:Hp; try done.
  destruct (forallb (λ kv, Ensemble.acceptable kv.2) items) eqn:Hall.
  - rewrite (read_items_ok _ [] [] Hall). cbn [app]. intros [= <- <-].
    unfold Ensemble._read_model_parameters. cbn [Ensemble.set_params Ensemble.params].
    rewrite read_items_ok; cbn [app].
    + f_equal. clear. induction items as [|[k v] rest IH]; [done|].
      cbn. injection IH as IH1 IH2. by rewrite IH1, IH2.
    + clear. induction items as [|[k v] rest IH]; [done|]. cbn. exact IH.
  - by rewrite (read_items_bad _ [] [] Hall).
Qed.

End EnsembleParameters.

Section EnsembleMembers.

Lemma contains_spec m l :
  Ensemble.contains m l = true
  ↔ Ensemble.model_name m ∈ map Ensemble.model_name l.
Proof.
  unfold Ensemble.contains. rewrite existsb_exists, list_elem_of_fmap. split.
  - intros (e & He & Heq%String.eqb_eq). exists e.
    split; [done|by apply list_elem_of_In].
  - intros (e & Heq & He). exists e.
    split; [by apply list_elem_of_In|by apply String.eqb_eq].
Qed.

Lemma contains_false m l :
  Ensemble.model_name m ∉ map Ensemble.model_name l →
  Ensemble.contains m l = false.
Proof.
  intros Hnot. destruct (Ensemble.contains m l) eqn:Hc; [|done].
  by apply contains_spec in Hc.
Qed.

Lemma add_model_nodup m self :
  NoDup (Ensemble.names self) →
  NoDup (Ensemble.names (Ensemble.add_model (Ensemble.AModel m) self).2).
Proof.
  unfold Ensemble.add_model, Ensemble.names. intros Hnd.
  destruct (Ensemble.contains m (Ensemble.entities self)) eqn:Hc;
    cbn [snd]; [done|].
  cbn [Ensemble.set_entities Ensemble.entities]. rewrite map_app. cbn [map].
  apply NoDup_app. split; [done|]. split; [|apply NoDup_singleton].
  intros x Hx ->%list_elem_of_singleton.
  apply contains_spec in Hx. congruence.
Qed.

(** X18.  [add_model] keeps the names of an ensemble's members pairwise
    distinct: it appends a model whose name no member has, and for a
    model whose name a member already has it raises [EntityExistsError]
    and leaves the ensemble as it was. *)
Theorem add_model_spec (m : Ensemble.model) (self : Ensemble.t) :
  (Ensemble.model_name m ∉ Ensemble.names self →
   Ensemble.add_model (Ensemble.AModel m) self
   = (Ensemble.Ok (),
      Ensemble.set_entities (Ensemble.entities self ++ [m]) self))
  ∧ (Ensemble.model_name m ∈ Ensemble.names self →
     Ensemble.add_model (Ensemble.AModel m) self
     = (Ensemble.Err
          (Ensemble.EntityExistsError
             ("Model " +:+ Ensemble.model_name m
                +:+ " already exists in ensemble " +:+ Ensemble.name self)),
        self))
  ∧ (NoDup (Ensemble.names self) →
     NoDup (Ensemble.names (Ensemble.add_model (Ensemble.AModel m) self).2)).
Proof.
  split; [|split].
  - unfold Ensemble.add_model, Ensemble.names.
    intros Hnot. by rewrite (contains_false _ _ Hnot).
  - unfold Ensemble.add_model, Ensemble.names.
    intros Hin. apply contains_spec in Hin. by rewrite Hin.
  - apply add_model_nodup.
Qed.

Lemma member_name_inj self i j :
  Ensemble.member_name self i = Ensemble.member_name self j → i = j.
Proof.
  unfold Ensemble.member_name. intros Heq.
  apply (inj (String.app _)) in Heq. apply (inj (String.app _)) in Heq.
  by apply (inj pretty) in Heq.
Qed.

Lemma fresh_from_step self i m :
  Ensemble.fresh_from self i →
  Ensemble.model_name m = Ensemble.member_name self i →
  Ensemble.fresh_from
    (Ensemble.set_entities (Ensemble.entities self ++ [m]) self) (S i).
Proof.
  intros Hfresh Hm j Hj. unfold Ensemble.names.
  cbn [Ensemble.set_entities Ensemble.entities]. rewrite map_app. cbn [map].
  intros [Hin|Hin%list_elem_of_singleton]%elem_of_app.
  - apply (Hfresh j); [lia|done].
  - rewrite Hm in Hin.
    apply (member_name_inj self) in Hin. lia.
Qed.


Lemma add_members_ok f rs sets :
  ∀ i self,
    forallb Ensemble.is_dict sets = true →
    Ensemble.fresh_from self i →
    Ensemble.add_members f i sets rs self
    = (Ensemble.Ok (),
       Ensemble.set_entities
         (Ensemble.entities self
            ++ imap (λ j v, Ensemble.member self rs (i + j)
                              (Ensemble.dict_items v)) sets)
         self).
Proof.
  induction sets as [|v sets IH]; intros i self Hall Hfresh.
  - cbn. rewrite app_nil_r. by destruct self.
  - cbn [forallb] in Hall. apply andb_prop in Hall as [Hv Hall].
    destruct v; try discriminate Hv.
    cbn [Ensemble.add_members]. unfold Ensemble.add_model.
    rewrite contains_false by (apply (Hfresh i); lia).
    rewrite IH; [|done|by apply (fresh_from_step self i)].
    cbn [imap]. unfold Ensemble.set_entities. cbn. f_equal. f_equal.
    rewrite <- app_assoc. cbn [app]. f_equal.
    rewrite Nat.add_0_r. f_equal.
    apply imap_ext. intros j x _. cbn. f_equal. lia.
Qed.

Lemma add_members_stop f rs pre :
  ∀ i self bad post,
    forallb Ensemble.is_dict pre = true →
    Ensemble.is_dict bad = false →
    Ensemble.fresh_from self i →
    Ensemble.add_members f i (pre ++ bad :: post) rs self
    = (Ensemble.Err (Ensemble.UserStrategyError (Ensemble.strategy_name f)),
       Ensemble.set_entities
         (Ensemble.entities self
            ++ imap (λ j v, Ensemble.member self rs (i + j)
                              (Ensemble.dict_items v)) pre)
         self).
Proof.
  induction pre as [|v pre IH]; intros i self bad post Hall Hbad Hfresh.
  - cbn. rewrite app_nil_r. destruct bad; try discriminate Hbad; by destruct self.
  - cbn [forallb] in Hall. apply andb_prop in Hall as [Hv Hall].
    destruct v; try discriminate Hv.
    cbn [Ensemble.add_members app]. unfold Ensemble.add_model.
    rewrite contains_false by (apply (Hfresh i); lia).
    rewrite IH; [|done|done|by apply (fresh_from_step self i)].
    cbn [imap]. unfold Ensemble.set_entities. cbn. f_equal. f_equal.
    rewrite <- app_assoc. cbn [app]. f_equal.
    rewrite Nat.add_0_r. f_equal.
    apply imap_ext. intros j x _. cbn. f_equal. lia.
Qed.

End EnsembleMembers.

Section EnsembleInitialize.
Variable call :
  Ensemble.strategy → list Ensemble.value → list (list Ensemble.value) →
  list (string * Ensemble.value) → Ensemble.result Ensemble.value.
Variable repr : Ensemble.value → string.

Lemma fresh_from_empty self i :
  Ensemble.entities self = [] → Ensemble.fresh_from self i.
Proof.
  intros Hempty j _. unfold Ensemble.names. rewrite Hempty. by intros ?%elem_of_nil.
Qed.


(** X20.  An ensemble with parameters and run settings and no members
    yet: when the strategy returns a list of dictionaries, the ensemble
    gets one member per dictionary, in order, member [i] named after the
    ensemble and [i] with that dictionary as its parameters and key
    prefixing enabled.  When the list holds something that is not a
    dictionary, [UserStrategyError] is raised at that element and the
    members built from the elements before it stay in the ensemble. *)
Theorem initialize_params (kwargs kwargs1 kwargs2 : list (string * Ensemble.value))
    (self : Ensemble.t) (perm_strat : Ensemble.value) (f : Ensemble.strategy)
    (replicas : option Ensemble.value) (rs : Settings)
    (param_names : list Ensemble.value) (parameters : list (list Ensemble.value))
    (sets : list Ensemble.value) :
  Ensemble.pop "perm_strat" kwargs = (Some perm_strat, kwargs1) →
  Ensemble._set_strategy repr perm_strat = Ensemble.Ok f →
  Ensemble.pop "replicas" kwargs1 = (replicas, kwargs2) →
  Ensemble.truthy (Ensemble.params self) = true →
  Ensemble.run_settings self = Some rs →
  Ensemble.entities self = [] →
  Ensemble._read_model_parameters self = Ensemble.Ok (param_names, parameters) →
  call f param_names parameters kwargs2 = Ensemble.Ok (Ensemble.VList sets) →
  (forallb Ensemble.is_dict sets = true →
   Ensemble._initialize_entities call repr kwargs self
   = (Ensemble.Ok (),
      Ensemble.set_entities
        (imap (λ i v, Ensemble.member self rs i (Ensemble.dict_items v)) sets)
        self))
  ∧ (∀ pre bad post,
       sets = pre ++ bad :: post →
       forallb Ensemble.is_dict pre = true →
       Ensemble.is_dict bad = false →
       Ensemble._initialize_entities call repr kwargs self
       = (Ensemble.Err (Ensemble.UserStrategyError (Ensemble.strategy_name f)),
          Ensemble.set_entities
            (imap (λ i v, Ensemble.member self rs i (Ensemble.dict_items v)) pre)
            self)).
Proof.
  intros Hpop Hstrat Hrep Hparams Hrs Hempty Hread Hcall.
  unfold Ensemble._initialize_entities.
  rewrite Hpop, Hstrat, Hrep, Hparams, Hrs, Hread, Hcall. split.
  - intros Hall.
    rewrite add_members_ok by (done || by apply fresh_from_empty).
    by rewrite Hempty.
  - intros pre bad post -> Hall Hbad.
    rewrite add_members_stop by (done || by apply fresh_from_empty).
    by rewrite Hempty.
Qed.

Lemma grows_refl self : Ensemble.grows_from self self.
Proof. split; [|done]. exists []. by rewrite app_nil_r. Qed.

Lemma grows_trans a b c :
  Ensemble.grows_from a b → Ensemble.grows_from b c → Ensemble.grows_from a c.
Proof.
  intros [(n1 & H1 & K1) N1] [(n2 & H2 & K2) N2]. split; [|auto].
  exists (n1 ++ n2). rewrite H2, H1, <- app_assoc. split; [done|].
  rewrite forallb_app. by rewrite K1, K2.
Qed.

(** One [add_model] of a model with key prefixing enabled. *)
Lemma add_model_grows m self :
  Ensemble.key_prefixing m = true →
  Ensemble.grows_from self (Ensemble.add_model (Ensemble.AModel m) self).2
  ∧ ∀ e, (Ensemble.add_model (Ensemble.AModel m) self).1 = Ensemble.Err e →
         Ensemble.member_error e
         ∧ (Ensemble.add_model (Ensemble.AModel m) self).2 = self.
Proof.
  intros Hk. split; [split|].
  - unfold Ensemble.add_model.
    destruct (Ensemble.contains m (Ensemble.entities self)); cbn [snd].
    + exists []. by rewrite app_nil_r.
    + exists [m]. cbn. by rewrite Hk.
  - apply add_model_nodup.
  - unfold Ensemble.add_model.
    destruct (Ensemble.contains m (Ensemble.entities self)); cbn [fst snd];
      intros e [= <-]. done.
Qed.

Lemma add_members_grows f rs sets :
  ∀ i self,
    Ensemble.grows_from self (Ensemble.add_members f i sets rs self).2
    ∧ ∀ e, (Ensemble.add_members f i sets rs self).1 = Ensemble.Err e →
           Ensemble.member_error e.
Proof.
  induction sets as [|v sets IH]; intros i self.
  - cbn. split; [apply grows_refl|done].
  - cbn [Ensemble.add_members].
    destruct v; try (cbn [fst snd]; split; [apply grows_refl|by intros e [= <-]]).
    set (m := Ensemble.model_enable_key_prefixing _).
    destruct (add_model_grows m self eq_refl) as [Hg He].
    destruct (Ensemble.add_model (Ensemble.AModel m) self) as [[[]|e] self1];
      cbn [fst snd] in *.
    + destruct (IH (S i) self1) as [Hg' He'].
      split; [by eapply grows_trans|done].
    + split; [done|]. intros e' [= <-]. by apply He.
Qed.

Lemma logger_grows level msg self :
  Ensemble.grows_from self (Ensemble.logger level msg self).
Proof. split; [|done]. exists []. cbn. by rewrite app_nil_r. Qed.

Lemma add_replicas_grows rs count :
  ∀ i self,
    Ensemble.grows_from self (Ensemble.add_replicas i count rs self).2
    ∧ ∀ e, (Ensemble.add_replicas i count rs self).1 = Ensemble.Err e →
           Ensemble.member_error e.
Proof.
  induction count as [|count IH]; intros i self.
  - cbn. split; [apply grows_refl|done].
  - cbn [Ensemble.add_replicas].
    set (m := Ensemble.model_enable_key_prefixing _).
    set (self0 := Ensemble.logger _ _ self).
    destruct (add_model_grows m self0 eq_refl) as [Hg He].
    destruct (Ensemble.add_model (Ensemble.AModel m) self0) as [[[]|e] self1];
      cbn [fst snd] in *.
    + destruct (IH (S i) self1) as [Hg' He'].
      split; [|done]. eapply grows_trans; [|exact Hg'].
      eapply grows_trans; [apply logger_grows|exact Hg].
    + split; [|intros e' [= <-]; by apply He].
      eapply grows_trans; [apply logger_grows|exact Hg].
Qed.

(** X21.  Whatever [_initialize_entities] is given and whether it returns
    or raises, it only appends to the ensemble's members, every member it
    appends has key prefixing enabled, and names that were pairwise
    distinct stay pairwise distinct. *)
Theorem initialize_entities_grows (kwargs : list (string * Ensemble.value))
    (self : Ensemble.t) :
  Ensemble.grows_from self
    (Ensemble._initialize_entities call repr kwargs self).2.
Proof.
  unfold Ensemble._initialize_entities.
  destruct (Ensemble.pop "perm_strat" kwargs) as [[perm_strat|] kwargs1];
    [|apply grows_refl].
  destruct (Ensemble._set_strategy repr perm_strat) as [f|e]; [|apply grows_refl].
  destruct (Ensemble.pop "replicas" kwargs1) as [replicas kwargs2].
  destruct (Ensemble.truthy (Ensemble.params self)).
  - destruct (Ensemble.run_settings self) as [rs|]; [|apply grows_refl].
    destruct (Ensemble._read_model_parameters self) as [[ns ps]|e];
      [|apply grows_refl].
    destruct (call f ns ps kwargs2) as [[]|e]; try apply grows_refl.
    apply add_members_grows.
  - destruct (Ensemble.run_settings self) as [rs|].
    + destruct (Ensemble.truthy (default Ensemble.VNone replicas));
        [|apply grows_refl].
      destruct (default Ensemble.VNone replicas); try apply grows_refl;
        apply add_replicas_grows.
    + destruct (Ensemble.batch_settings self);
        [apply logger_grows|apply grows_refl].
Qed.

(** X22.  When [_initialize_entities] raises anything but
    [UserStrategyError] or [EntityExistsError] (a missing or unknown
    strategy, parameters of a wrong type, a refusal for lack of settings,
    an error of the strategy itself), the ensemble is exactly as it was:
    no member was added and nothing was logged. *)
Theorem initialize_entities_refusal (kwargs : list (string * Ensemble.value))
    (self self' : Ensemble.t) (e : Ensemble.exn) :
  Ensemble._initialize_entities call repr kwargs self = (Ensemble.Err e, self') →
  ¬ Ensemble.member_error e →
  self' = self.
Proof.
  unfold Ensemble._initialize_entities. intros Hinit Hnot.
  destruct (Ensemble.pop "perm_strat" kwargs) as [[perm_strat|] kwargs1];
    [|by injection Hinit].
  destruct (Ensemble._set_strategy repr perm_strat) as [f|e0];
    [|by injection Hinit].
  destruct (Ensemble.pop "replicas" kwargs1) as [replicas kwargs2].
  destruct (Ensemble.truthy (Ensemble.params self)).
  - destruct (Ensemble.run_settings self) as [rs|]; [|by injection Hinit].
    destruct (Ensemble._read_model_parameters self) as [[ns ps]|e0];
      [|by injection Hinit].
    destruct (call f ns ps kwargs2) as [[| | | |l| | |]|e0];
      try (by injection Hinit).
    destruct (add_members_grows f rs l 0%nat self) as [_ He].
    rewrite Hinit in He. destruct Hnot. by apply He.
  - destruct (Ensemble.run_settings self) as [rs|].
    + destruct (Ensemble.truthy (default Ensemble.VNone replicas));
        [|by injection Hinit].
      destruct (default Ensemble.VNone replicas) as [|b|n| | | | |];
        try (by injection Hinit).
      * destruct (add_replicas_grows rs 1 0%nat self) as [_ He].
        rewrite Hinit in He. destruct Hnot. by apply He.
      * destruct (add_replicas_grows rs (Z.to_nat n) 0%nat self) as [_ He].
        rewrite Hinit in He. destruct Hnot. by apply He.
    + destruct (Ensemble.batch_settings self); [done|by injection Hinit].
Qed.

(** X23.  Which settings an ensemble is refused for, once its strategy
    is resolved.  Parameters without run settings are refused, batch
    settings or not; run settings without parameters need replicas, and
    [None] or 0 replicas are refused; with neither parameters nor run
    settings, batch settings are required, and with them the ensemble
    stays empty and one info line is logged.  Every refusal is a
    [SmartSimError] that leaves the ensemble as it was. *)
Theorem initialize_entities_settings (kwargs kwargs1 kwargs2 : list (string * Ensemble.value))
    (self : Ensemble.t) (perm_strat : Ensemble.value) (f : Ensemble.strategy)
    (replicas : option Ensemble.value) :
  Ensemble.pop "perm_strat" kwargs = (Some perm_strat, kwargs1) →
  Ensemble._set_strategy repr perm_strat = Ensemble.Ok f →
  Ensemble.pop "replicas" kwargs1 = (replicas, kwargs2) →
  (Ensemble.truthy (Ensemble.params self) = true →
   Ensemble.run_settings self = None →
   Ensemble._initialize_entities call repr kwargs self
   = (Ensemble.Err (Ensemble.SmartSimError
        "Ensembles supplied with 'params' argument must be provided run settings"),
      self))
  ∧ (Ensemble.truthy (Ensemble.params self) = false →
     is_Some (Ensemble.run_settings self) →
     Ensemble.truthy (default Ensemble.VNone replicas) = false →
     Ensemble._initialize_entities call repr kwargs self
     = (Ensemble.Err (Ensemble.SmartSimError
          "Ensembles without 'params' to expand into members cannot be given run settings"),
        self))
  ∧ (Ensemble.truthy (Ensemble.params self) = false →
     Ensemble.run_settings self = None →
     Ensemble.batch_settings self = None →
     Ensemble._initialize_entities call repr kwargs self
     = (Ensemble.Err (Ensemble.SmartSimError
          "Ensemble must be provided batch settings or run settings"),
        self))
  ∧ (Ensemble.truthy (Ensemble.params self) = false →
     Ensemble.run_settings self = None →
     is_Some (Ensemble.batch_settings self) →
     Ensemble._initialize_entities call repr kwargs self
     = (Ensemble.Ok (),
        Ensemble.logger "info" "Empty ensemble created for batch launch" self)).
Proof.
  intros Hpop Hstrat Hrep. unfold Ensemble._initialize_entities.
  rewrite Hpop, Hstrat, Hrep. repeat split.
  - by intros -> ->.
  - by intros -> [rs ->] ->.
  - by intros -> -> ->.
  - by intros -> -> [bs ->].
Qed.

(** X24.  The strategy is resolved before anything else: without a
    [perm_strat] keyword [_initialize_entities] raises [KeyError], and
    for a name other than "all_perm", "step" and "random" it raises
    [SSUnsupportedError] naming it; in both cases the ensemble is left as
    it was, whatever parameters, settings and replicas it was given. *)
Theorem initialize_entities_strategy_first (kwargs : list (string * Ensemble.value))
    (self : Ensemble.t) :
  ((Ensemble.pop "perm_strat" kwargs).1 = None →
   Ensemble._initialize_entities call repr kwargs self
   = (Ensemble.Err (Ensemble.KeyError "perm_strat"), self))
  ∧ ∀ s, (Ensemble.pop "perm_strat" kwargs).1 = Some (Ensemble.VStr s) →
         s ∉ ["all_perm"; "step"; "random"] →
         Ensemble._initialize_entities call repr kwargs self
         = (Ensemble.Err (Ensemble.SSUnsupportedError
              ("Permutation strategy given is not supported: " +:+ s)),
            self).
Proof.
  unfold Ensemble._initialize_entities.
  destruct (Ensemble.pop "perm_strat" kwargs) as [v kwargs1]. cbn [fst]. split.
  - by intros ->.
  - intros s -> Hs. unfold Ensemble._set_strategy.
    destruct (String.eqb_spec s "all_perm") as [->|_]; [set_solver|].
    destruct (String.eqb_spec s "step") as [->|_]; [set_solver|].
    destruct (String.eqb_spec s "random") as [->|_]; [set_solver|].
    done.
Qed.

End EnsembleInitialize.

(** * The further properties on the examples *)

Section MoreExamples.



(** The rejected submission leaves the registry of the example alone. *)
Lemma run_registry_effect_witness :
  step_mapping (run (Fake.job_0 ["--reject"])
                  (Fake.launcher None "R" 0 Fake.registry)).2
  = Fake.registry.
Proof.
  pose proof (run_registry_effect (ext:=Fake.externals) (Fake.job_0 ["--reject"])
                (Fake.launcher None "R" 0 Fake.registry)) as Heff.
  destruct (run (Fake.job_0 ["--reject"]) (Fake.launcher None "R" 0 Fake.registry))
    as [[r|e] st'] eqn:Hrun.
  - exfalso. revert Hrun. vm_compute. discriminate.
  - exact (proj2 Heff).
Defined.

(** The batch job gets a non-empty identifier. *)
Lemma run_result_truthy_iff_managed_witness :
  Py.truthy (Some "42.pbs") = managed (Fake.job_0 [])
  ∧ (managed (Fake.job_0 []) = false → Some "42.pbs" = None).
Proof.
  apply (run_result_truthy_iff_managed (ext:=Fake.externals) (Fake.job_0 [])
           (Fake.launcher None "R" 0 ∅)
           (mkState (Fake.mk true 0 0 [] None "R" 0 : @World Fake.externals)
              (<["job_0" := StepMap.mk (Some "42.pbs") None true]> ∅)
              [("debug", "Gleaned batch job id: 42.pbs for job_0")])).
  reflexivity.
Defined.

Lemma registry_ok_example : registry_ok Fake.registry.
Proof.
  intros n e. unfold Fake.registry.
  destruct (decide (n = "job_1")) as [->|H1].
  - rewrite lookup_insert_eq. by intros [= <-]; eexists.
  - rewrite lookup_insert_ne by done.
    destruct (decide (n = "job_0")) as [->|H0].
    + rewrite lookup_insert_eq. by intros [= <-].
    + rewrite lookup_insert_ne by done. by rewrite lookup_empty.
Defined.

(** Launching the direct-run job on the example registry keeps it well
    formed. *)
Lemma run_keeps_registry_ok_witness :
  registry_ok (step_mapping (run Fake.job_1
                               (Fake.launcher None "R" 0 Fake.registry)).2).
Proof.
  apply (run_keeps_registry_ok (ext:=Fake.externals)). exact registry_ok_example.
Defined.

(** Nobody is registered under [ghost]. *)
Lemma get_step_update_unregistered_witness :
  get_step_update ["ghost"] (Fake.launcher None "R" 0 Fake.registry)
  = (Return [], Fake.launcher None "R" 0 Fake.registry).
Proof.
  apply (get_step_update_unregistered (ext:=Fake.externals)).
  intros n ->%list_elem_of_singleton. reflexivity.
Defined.

(** One [qstat] for the managed job of the example. *)
Lemma get_step_update_batched_witness :
  get_step_update ["ghost"; "job_0"] (Fake.launcher None "R" 0 Fake.registry)
  = (Return [("job_0", StepInfo.mk "Running" None None None)],
     mkState (Fake.mk false 0 1 [] None "R" 0 : @World Fake.externals)
       Fake.registry []).
Proof.
  apply (get_step_update_batched (ext:=Fake.externals) ["ghost"; "job_0"]
           (Fake.launcher None "R" 0 Fake.registry)); [reflexivity|done].
Defined.

(** Launch the batch job, then poll it: one [qstat] with its id. *)
Lemma run_then_poll_witness :
  get_step_update ["job_0"]
    (mkState (Fake.mk true 0 0 [] None "R" 0 : @World Fake.externals)
       (<["job_0" := StepMap.mk (Some "42.pbs") None true]> ∅)
       [("debug", "Gleaned batch job id: 42.pbs for job_0")])
  = (Return [("job_0", StepInfo.mk "Running" None None None)],
     mkState (Fake.mk true 0 1 [] None "R" 0 : @World Fake.externals)
       (<["job_0" := StepMap.mk (Some "42.pbs") None true]> ∅)
       [("debug", "Gleaned batch job id: 42.pbs for job_0")]).
Proof.
  refine (proj1 (run_then_poll (ext:=Fake.externals) (Fake.job_0 [])
                   (Fake.launcher None "R" 0 ∅) _ (Some "42.pbs") _) eq_refl).
  reflexivity.
Defined.

(** Launch the direct-run job, then stop it. *)
Lemma run_then_stop_witness :
  ∃ info st2,
    stop "job_1"
      (mkState (Fake.mk true 0 0 [] None "R" 0 : @World Fake.externals)
         (<["job_1" := StepMap.mk None (Some "1000") false]> ∅) [])
    = (Return info, st2)
    ∧ StepInfo.status info = "Cancelled".
Proof.
  apply (run_then_stop (ext:=Fake.externals) Fake.job_1
           (Fake.launcher None "R" 0 ∅) _ None).
  reflexivity.
Defined.

Lemma stop_unregistered_witness :
  stop "ghost" (Fake.launcher None "R" 0 Fake.registry)
  = (Raise (KeyError "ghost"), Fake.launcher None "R" 0 Fake.registry).
Proof.
  apply (stop_unregistered (ext:=Fake.externals)). reflexivity.
Defined.

Lemma stop_keeps_registry_witness :
  ∃ info st' info' st'',
    stop "job_0" (Fake.launcher None "R" 1 Fake.registry) = (Return info, st')
    ∧ step_mapping st' = Fake.registry
    ∧ stop "job_0" st' = (Return info', st'')
    ∧ StepInfo.status info' = "Cancelled"
    ∧ step_mapping st'' = Fake.registry.
Proof.
  apply (stop_keeps_registry (ext:=Fake.externals) "job_0" Fake.managed_entry
           (Fake.launcher None "R" 1 Fake.registry)).
  reflexivity.
Defined.

(** [qdel] succeeds: [stop] logs nothing. *)
Lemma stop_log_witness :
  log (stop "job_0" (Fake.launcher None "R" 0 Fake.registry)).2 = [].
Proof.
  exact (stop_log (ext:=Fake.externals) "job_0" Fake.managed_entry
           (Fake.launcher None "R" 0 Fake.registry) eq_refl).
Defined.


Lemma create_step_dispatch_witness :
  create_step (ext:=Fake.externals) "job_0" "/lus/scratch/run"
    (Fake.batch_settings ["--silent"])
  = Return (Fake.job_0 ["--silent"])
  ∧ settings_class (Fake.batch_settings ["--silent"]) = QsubBatchSettings.
Proof.
  split; [reflexivity|].
  exact (proj2 (create_step_dispatch (ext:=Fake.externals) "job_0"
                  "/lus/scratch/run" (Fake.batch_settings ["--silent"]))
           (Fake.job_0 ["--silent"]) eq_refl).
Defined.

Lemma create_step_unsupported_witness :
  create_step (ext:=Fake.externals) "job_2" "/lus/scratch/run"
    {| settings_class := SrunSettings; settings_args := [("nodes", "2")] |}
  = Raise (TypeError
      ("RunSettings type " +:+ type_repr SrunSettings +:+ " not supported by PBSPro")).
Proof.
  apply (create_step_unsupported (ext:=Fake.externals)). reflexivity.
Defined.

(** The grid of the example: two candidate step counts, one mode. *)
Lemma read_model_parameters_spec_witness :
  Ensemble._read_model_parameters
    (EnsembleExamples.ensemble EnsembleExamples.grid None
       (Some EnsembleExamples.aprun))
  = Ensemble.Ok ([Ensemble.VStr "steps"; Ensemble.VStr "mode"],
                 [[Ensemble.VInt 10; Ensemble.VInt 20]; [Ensemble.VStr "fast"]]).
Proof.
  exact (proj1 (read_model_parameters_spec
                  (EnsembleExamples.ensemble EnsembleExamples.grid None
                     (Some EnsembleExamples.aprun))
                  [(Ensemble.VStr "steps",
                    Ensemble.VList [Ensemble.VInt 10; Ensemble.VInt 20]);
                   (Ensemble.VStr "mode", Ensemble.VStr "fast")]
                  eq_refl) eq_refl).
Defined.

Lemma read_model_parameters_idempotent_witness :
  Ensemble._read_model_parameters
    (Ensemble.set_params
       (Ensemble.VDict
          (zip [Ensemble.VStr "steps"; Ensemble.VStr "mode"]
             (map Ensemble.VList
                [[Ensemble.VInt 10; Ensemble.VInt 20]; [Ensemble.VStr "fast"]])))
       (EnsembleExamples.ensemble EnsembleExamples.grid None
          (Some EnsembleExamples.aprun)))
  = Ensemble.Ok ([Ensemble.VStr "steps"; Ensemble.VStr "mode"],
                 [[Ensemble.VInt 10; Ensemble.VInt 20]; [Ensemble.VStr "fast"]]).
Proof.
  apply read_model_parameters_idempotent. reflexivity.
Defined.

(** Adding a model twice: the second attempt is refused. *)
Lemma add_model_spec_witness :
  let m := Ensemble.Model "ens_0" [] "/lus/scratch/run" EnsembleExamples.aprun in
  let self := EnsembleExamples.ensemble (Ensemble.VDict []) None None in
  let self1 := (Ensemble.add_model (Ensemble.AModel m) self).2 in
  Ensemble.entities self1 = [m]
  ∧ Ensemble.add_model (Ensemble.AModel m) self1
    = (Ensemble.Err
         (Ensemble.EntityExistsError
            ("Model " +:+ "ens_0" +:+ " already exists in ensemble " +:+ "ens")),
       self1).
Proof.
  intros m self self1. split; [reflexivity|].
  apply (proj1 (proj2 (add_model_spec m self1))).
  apply list_elem_of_In. cbn. tauto.
Defined.


(** The grid expands into two members; the user's function [broken]
    leaves one member behind when it fails. *)
Lemma initialize_params_witness :
  let self := EnsembleExamples.ensemble EnsembleExamples.grid None
                (Some EnsembleExamples.aprun) in
  Ensemble._initialize_entities EnsembleExamples.call EnsembleExamples.repr
    [("perm_strat", Ensemble.VStr "all_perm")] self
  = (Ensemble.Ok (),
     Ensemble.set_entities
       [Ensemble.member self EnsembleExamples.aprun 0
          [(Ensemble.VStr "steps", Ensemble.VInt 10);
           (Ensemble.VStr "mode", Ensemble.VStr "fast")];
        Ensemble.member self EnsembleExamples.aprun 1
          [(Ensemble.VStr "steps", Ensemble.VInt 20);
           (Ensemble.VStr "mode", Ensemble.VStr "fast")]]
       self)
  ∧ Ensemble._initialize_entities EnsembleExamples.call EnsembleExamples.repr
      [("perm_strat", Ensemble.VCallable "broken")] self
    = (Ensemble.Err (Ensemble.UserStrategyError "broken"),
       Ensemble.set_entities
         [Ensemble.member self EnsembleExamples.aprun 0
            [(Ensemble.VStr "steps", Ensemble.VInt 10)]]
         self).
Proof.
  intros self. split.
  - refine (proj1 (initialize_params EnsembleExamples.call EnsembleExamples.repr
                     [("perm_strat", Ensemble.VStr "all_perm")] [] [] self
                     (Ensemble.VStr "all_perm") Ensemble.create_all_permutations
                     None EnsembleExamples.aprun _ _ _
                     eq_refl eq_refl eq_refl eq_refl eq_refl eq_refl eq_refl eq_refl)
                  eq_refl).
  - refine (proj2 (initialize_params EnsembleExamples.call EnsembleExamples.repr
                     [("perm_strat", Ensemble.VCallable "broken")] [] [] self
                     (Ensemble.VCallable "broken") (Ensemble.user_function "broken")
                     None EnsembleExamples.aprun _ _ _
                     eq_refl eq_refl eq_refl eq_refl eq_refl eq_refl eq_refl eq_refl)
                  [Ensemble.VDict [(Ensemble.VStr "steps", Ensemble.VInt 10)]]
                  (Ensemble.VInt 3) [Ensemble.VDict []] eq_refl eq_refl eq_refl).
Defined.

(** Whatever the user's function [broken] leaves behind has key
    prefixing enabled. *)
Lemma initialize_entities_grows_witness :
  let self := EnsembleExamples.ensemble EnsembleExamples.grid None
                (Some EnsembleExamples.aprun) in
  Ensemble.grows_from self
    (Ensemble._initialize_entities EnsembleExamples.call EnsembleExamples.repr
       [("perm_strat", Ensemble.VCallable "broken")] self).2.
Proof.
  intros self. apply initialize_entities_grows.
Defined.

(** The strategy [random] of the example raises: the ensemble is left
    alone. *)
Lemma initialize_entities_refusal_witness :
  let self := EnsembleExamples.ensemble EnsembleExamples.grid None
                (Some EnsembleExamples.aprun) in
  (Ensemble._initialize_entities EnsembleExamples.call EnsembleExamples.repr
     [("perm_strat", Ensemble.VStr "random")] self).2
  = self.
Proof.
  intros self.
  apply (initialize_entities_refusal EnsembleExamples.call EnsembleExamples.repr
           [("perm_strat", Ensemble.VStr "random")] self _
           (Ensemble.TypeError "strategy failed")).
  - reflexivity.
  - intros [].
Defined.

(** Parameters and batch settings but no run settings: refused. *)
Lemma initialize_entities_settings_witness :
  let self := EnsembleExamples.ensemble EnsembleExamples.grid
                (Some EnsembleExamples.qsub) None in
  Ensemble._initialize_entities EnsembleExamples.call EnsembleExamples.repr
    [("perm_strat", Ensemble.VStr "all_perm")] self
  = (Ensemble.Err (Ensemble.SmartSimError
       "Ensembles supplied with 'params' argument must be provided run settings"),
     self).
Proof.
  intros self.
  refine (proj1 (initialize_entities_settings EnsembleExamples.call
                   EnsembleExamples.repr
                   [("perm_strat", Ensemble.VStr "all_perm")] [] [] self
                   (Ensemble.VStr "all_perm") Ensemble.create_all_permutations None
                   eq_refl eq_refl eq_refl) eq_refl eq_refl).
Defined.

(** The name the constructor's docstring gives for the stepped strategy
    is not one the code knows. *)
Lemma initialize_entities_strategy_first_witness :
  let self := EnsembleExamples.ensemble (Ensemble.VDict []) None
                (Some EnsembleExamples.aprun) in
  Ensemble._initialize_entities EnsembleExamples.call EnsembleExamples.repr
    [("perm_strat", Ensemble.VStr "stepped"); ("replicas", Ensemble.VInt 2)] self
  = (Ensemble.Err (Ensemble.SSUnsupportedError
       ("Permutation strategy given is not supported: " +:+ "stepped")),
     self).
Proof.
  intros self.
  apply (proj2 (initialize_entities_strategy_first EnsembleExamples.call
                  EnsembleExamples.repr
                  [("perm_strat", Ensemble.VStr "stepped");
                   ("replicas", Ensemble.VInt 2)] self) "stepped").
  - reflexivity.
  - intros Hin. apply list_elem_of_In in Hin. cbn in Hin.
    destruct Hin as [H|[H|[H|[]]]]; discriminate H.
Defined.

End MoreExamples.
